(** * The event payload decoder of etw/etw.py (class EventConsumer)

    A shallow embedding of the methods of [EventConsumer] that decode one
    event record: [_getEventInformation], [_getArraySize],
    [_getPropertyLength], [_getMapInfo], [_handleEvtInvalidEvtData],
    [_unpackSimpleType], [_unpackComplexType] and [_processEvent].

    The methods mutate two attributes of the consumer ([index] and
    [vfield_length]), call the TDH functions of the operating system and
    may raise.  They are written in a state-and-exception monad over a
    [World]: the attributes of [self] and the chronological trace of the
    calls that left the process (TDH calls and the user's callback).  The
    answers of the operating system are a parameter ([TdhApi]).

    A [str] is represented by a [string] that determines it (its UTF-8
    encoding), so that two [str] are equal exactly when their
    representations are.  The operations of Python whose result on
    non-ASCII text follows the Unicode database ([str.strip],
    [str.upper], [int] of a [str]) are parameters ([PyText]); the
    concrete records of this file are ASCII and use the ASCII instance.
    Integers are [Z], with the wrap-around of the ctypes integer types
    written out. *)

From Stdlib Require Import ZArith List String Ascii Bool Lia.
Import ListNotations.
Local Open Scope string_scope.
Local Open Scope list_scope.
Local Open Scope Z_scope.

(** ** Python values *)

#[local] Set Warnings "-register-all".

Inductive pyval : Type :=
| PyNone
| PyInt (z : Z)
| PyStr (s : string)
| PyBytes (b : list Z)
| PyObj (repr : string)
| PyDict (d : list (string * pyval)).

(** A [dict] with [str] keys, in insertion order. *)
Definition dict : Type := list (string * pyval).

(** [d[k] = v]: an existing key keeps its position. *)
Fixpoint dict_setitem (d : dict) (k : string) (v : pyval) : dict :=
  match d with
  | [] => [(k, v)]
  | (k', v') :: d' =>
      if String.eqb k' k then (k', v) :: d'
      else (k', v') :: dict_setitem d' k v
  end.

(** [d.update(other)] *)
Definition dict_update (d other : dict) : dict :=
  fold_left (fun acc kv => dict_setitem acc (fst kv) (snd kv)) other d.

Definition dict_keys (d : dict) : list string := map fst d.

Definition is_None (v : pyval) : bool :=
  match v with PyNone => true | _ => false end.

Inductive exn : Type :=
| WinError (code : option Z)   (* ct.WinError() reads GetLastError: None *)
| ETWException (msg : string)
| TypeError
| ValueError.

Inductive result (A : Type) : Type :=
| Return (a : A)
| Raise (e : exn).
Arguments Return {A} a.
Arguments Raise {A} e.

(** ** ctypes integers and pointers *)

Definition c_ushort (z : Z) : Z := z mod 65536.
Definition DWORD (z : Z) : Z := z mod 4294967296.

(** A ctypes pointer instance; [NULL] is the instance [ct.POINTER(T)()]. *)
Inductive pointer (A : Type) : Type :=
| NULL
| Ptr (a : A).
Arguments NULL {A}.
Arguments Ptr {A} a.

(** [sizeof(c_wchar)] on Windows, the only platform of the TDH library. *)
Definition sizeof_c_wchar : Z := 2.

(** Modelled from the spec: [ia.IN6_ADDR] is declared in etw/in6addr.py,
    which is not part of the sources; the spec gives the size of the
    address type as 16 bytes. *)
Definition sizeof_IN6_ADDR : Z := 16.

(** [(ct.c_char * n)()]: a zeroed buffer. *)
Definition c_char_array (n : Z) : list Z := repeat 0 (Z.to_nat n).

(** [ct.memmove(dst, src, count)] where [src] are the [count] bytes read. *)
Definition memmove (dst src : list Z) : list Z :=
  src ++ skipn (List.length src) dst.

(** [.value] of a [c_char] array: the bytes before the first NUL. *)
Fixpoint c_char_array_value (buf : list Z) : list Z :=
  match buf with
  | [] => []
  | b :: buf' => if b =? 0 then [] else b :: c_char_array_value buf'
  end.

(** ** Python text operations *)

Module Py.

Definition code (c : ascii) : Z := Z.of_nat (nat_of_ascii c).
Definition chr (z : Z) : ascii := ascii_of_nat (Z.to_nat z).

Definition lower_char (c : ascii) : ascii :=
  if (65 <=? code c) && (code c <=? 90) then chr (code c + 32) else c.
Definition upper_char (c : ascii) : ascii :=
  if (97 <=? code c) && (code c <=? 122) then chr (code c - 32) else c.

Fixpoint smap (f : ascii -> ascii) (s : string) : string :=
  match s with
  | EmptyString => EmptyString
  | String c s' => String (f c) (smap f s')
  end.

(** The letters A..Z in lower case.  The code uses [str.lower] only to
    test for the ASCII suffix 'length', which no other character
    lower-cases into. *)
Definition lower : string -> string := smap lower_char.

(** [s.upper()] for an ASCII [s]. *)
Definition ascii_upper : string -> string := smap upper_char.

(** Whitespace of an ASCII [str] for [str.strip] (TAB..CR, FS..US,
    SPACE), and the whitespace that [int] skips around a literal of
    ASCII text or [bytes] (TAB..CR, SPACE). *)
Definition str_space (z : Z) : bool :=
  ((9 <=? z) && (z <=? 13)) || ((28 <=? z) && (z <=? 32)).
Definition bytes_space (z : Z) : bool :=
  ((9 <=? z) && (z <=? 13)) || (z =? 32).

Fixpoint lstrip (sp : Z -> bool) (l : list Z) : list Z :=
  match l with
  | [] => []
  | c :: l' => if sp c then lstrip sp l' else l
  end.
Definition strip_codes (sp : Z -> bool) (l : list Z) : list Z :=
  rev (lstrip sp (rev (lstrip sp l))).

Definition codes (s : string) : list Z := map code (list_ascii_of_string s).
Definition of_codes (l : list Z) : string :=
  string_of_list_ascii (map chr l).

(** [s.strip()] for an ASCII [s]. *)
Definition ascii_strip (s : string) : string :=
  of_codes (strip_codes str_space (codes s)).

(** [s.endswith(suffix)] *)
Definition endswith (s suffix : string) : bool :=
  let n := String.length s in
  let m := String.length suffix in
  Nat.leb m n && String.eqb (substring (n - m) m s) suffix.

(** The digits of an integer literal in base 10: decimal digits, single
    underscores allowed between two digits. *)
Fixpoint digits (acc : Z) (after_digit : bool) (l : list Z) : option Z :=
  match l with
  | [] => if after_digit then Some acc else None
  | c :: l' =>
      if (48 <=? c) && (c <=? 57) then digits (10 * acc + (c - 48)) true l'
      else if (c =? 95) && after_digit then digits acc false l'
      else None
  end.

Definition int_literal (sp : Z -> bool) (l : list Z) : option Z :=
  match strip_codes sp l with
  | 45 :: l' => option_map Z.opp (digits 0 false l')
  | 43 :: l' => digits 0 false l'
  | l' => digits 0 false l'
  end.

(** [int(s, 10)] for an ASCII [str]: [None] stands for [ValueError]. *)
Definition ascii_int (s : string) : option Z :=
  int_literal bytes_space (codes s).

(** [int(x, 10)]: [ValueError] on a malformed literal, [TypeError] when
    [x] is neither [str] nor [bytes].  [int_of_str] parses a [str]. *)
Definition int10 (int_of_str : string -> option Z) (x : pyval) : result Z :=
  match x with
  | PyStr s =>
      match int_of_str s with
      | Some z => Return z
      | None => Raise ValueError
      end
  | PyBytes b =>
      match int_literal bytes_space b with
      | Some z => Return z
      | None => Raise ValueError
      end
  | _ => Raise TypeError
  end.

End Py.

(** An ASCII lower-case letter occurs in [s]. *)
Definition has_lower (s : string) : bool :=
  existsb (fun z => (97 <=? z) && (z <=? 122)) (Py.codes s).

(** The operations on [str] whose result depends on the Unicode database
    of the interpreter.  [upper_without_lower]: no character upper-cases
    into one of the letters a..z. *)
Class PyText : Type := {
  str_strip : string -> string;
  str_upper : string -> string;
  int_of_str : string -> option Z;
  upper_without_lower : forall s, has_lower (str_upper s) = false
}.

(** ** The structures of the tracing subsystem *)

(** A GUID is observed only through [str(guid)]. *)
Definition GUID : Type := string.

Record EVENT_DESCRIPTOR : Type := {
  ed_Id : Z;
  ed_Version : Z;
  ed_Channel : Z;
  ed_Level : Z;
  ed_Opcode : Z;
  ed_Task : Z;
  ed_Keyword : Z
}.

Record EVENT_HEADER : Type := {
  eh_Size : Z;
  eh_HeaderType : Z;
  eh_Flags : Z;
  eh_EventProperty : Z;
  eh_ThreadId : Z;
  eh_ProcessId : Z;
  eh_TimeStamp : Z;
  eh_ProviderId : GUID;
  eh_EventDescriptor : EVENT_DESCRIPTOR;
  eh_KernelTime : Z;
  eh_UserTime : Z;
  eh_ActivityId : GUID
}.

(** [UserData] is a [c_void_p] field: Python reads a null pointer as
    [None].  [UserDataLength] is a USHORT. *)
Record EVENT_RECORD : Type := {
  EventHeader : EVENT_HEADER;
  UserData : option Z;
  UserDataLength : Z
}.

(** EVENT_PROPERTY_INFO.  The three unions are kept as the storage they
    share: [epi_u1] is two USHORTs and a ULONG, read either as
    [nonStructType] or as [structType]; [epi_u2] and [epi_u3] are one USHORT
    each. *)
Record EVENT_PROPERTY_INFO : Type := {
  epi_Flags : Z;
  epi_NameOffset : Z;
  epi_u1_w0 : Z;
  epi_u1_w1 : Z;
  epi_u1_dw : Z;
  epi_u2_w : Z;
  epi_u3_w : Z
}.

Module nonStructType.
Definition InType (p : EVENT_PROPERTY_INFO) : Z := epi_u1_w0 p.
Definition OutType (p : EVENT_PROPERTY_INFO) : Z := epi_u1_w1 p.
Definition MapNameOffset (p : EVENT_PROPERTY_INFO) : Z := epi_u1_dw p.
End nonStructType.

Module structType.
Definition StructStartIndex (p : EVENT_PROPERTY_INFO) : Z := epi_u1_w0 p.
Definition NumOfStructMembers (p : EVENT_PROPERTY_INFO) : Z := epi_u1_w1 p.
End structType.

Module epi_u2.
Definition count (p : EVENT_PROPERTY_INFO) : Z := epi_u2_w p.
Definition countPropertyIndex (p : EVENT_PROPERTY_INFO) : Z := epi_u2_w p.
End epi_u2.

Module epi_u3.
Definition length (p : EVENT_PROPERTY_INFO) : Z := epi_u3_w p.
Definition lengthPropertyIndex (p : EVENT_PROPERTY_INFO) : Z := epi_u3_w p.
End epi_u3.

(** TRACE_EVENT_INFO: the block that TdhGetEventInformation fills.
    [EventPropertyInfoArray] is indexed as a C array (any index reads
    whatever the block holds there); [tei_strings] gives the
    NUL-terminated wide string found at a byte offset of the block. *)
Record TRACE_EVENT_INFO : Type := {
  tei_EventDescriptor : EVENT_DESCRIPTOR;
  tei_ProviderNameOffset : Z;
  tei_TaskNameOffset : Z;
  tei_EventMessageOffset : Z;
  tei_TopLevelPropertyCount : Z;
  EventPropertyInfoArray : Z -> EVENT_PROPERTY_INFO;
  tei_strings : Z -> string
}.

(** [rel_ptr_to_str(base, offset)] of etw/common.py. *)
Definition rel_ptr_to_str (info : TRACE_EVENT_INFO) (offset : Z) : string :=
  tei_strings info offset.

(** The bytes of an EVENT_MAP_INFO block. *)
Definition EVENT_MAP_INFO : Type := list Z.

(** [PropertyName] is the address of the name, kept relative to the base
    of the TRACE_EVENT_INFO block. *)
Record PROPERTY_DATA_DESCRIPTOR : Type := {
  PropertyName : Z;
  ArrayIndex : Z
}.

(** The arguments of one TdhFormatProperty call.  [fa_Buffer] is [None]
    for the size probe ([Buffer = None], [BufferSize = 0]) and [Some n] for
    a buffer of [n] bytes with [BufferSize = n]. *)
Record FormatArgs : Type := {
  fa_MapInfo : option (pointer EVENT_MAP_INFO);
  fa_PointerSize : Z;
  fa_InType : Z;
  fa_OutType : Z;
  fa_PropertyLength : Z;
  fa_UserDataLength : Z;
  fa_UserData : Z;
  fa_Buffer : option Z
}.

Record FormatReply : Type := {
  fr_status : Z;
  fr_BufferSize : Z;
  fr_Buffer : string;
  fr_UserDataConsumed : Z
}.

(** The constants that etw.py imports from etw/tdh.py, etw/evntcons.py and
    etw/common.py, none of which is part of the sources, and the converter
    table [tdh.TDH_CONVERTER_LOOKUP] (a converter is a Python callable: it
    returns or raises).  They are parameters of the development. *)
Class TdhConstants : Type := {
  ERROR_SUCCESS : Z;
  ERROR_INSUFFICIENT_BUFFER : Z;
  ERROR_NOT_FOUND : Z;
  ERROR_EVT_INVALID_EVENT_DATA : Z;
  PropertyStruct : Z;
  PropertyParamLength : Z;
  PropertyParamCount : Z;
  PropertyParamFixedCount : Z;
  TDH_INTYPE_BINARY : Z;
  TDH_OUTTYPE_IPV6 : Z;
  EVENT_HEADER_FLAG_32_BIT_HEADER : Z;
  MAX_UINT : Z;
  TDH_CONVERTER_LOOKUP : Z -> option (pyval -> result pyval);
  invalid_event_data_not_success :
    ERROR_EVT_INVALID_EVENT_DATA <> ERROR_SUCCESS
}.

(** The answers of the operating system: each TDH function as a function
    of its arguments, and the bytes of the process memory that [UserData]
    points into.  A buffer argument is [None] for the size probe and
    [Some n] for a buffer of [n] bytes. *)
Record TdhApi : Type := {
  TdhGetEventInformation :
    EVENT_RECORD -> option Z -> Z * Z * TRACE_EVENT_INFO;
  TdhGetEventMapInformation :
    EVENT_RECORD -> string -> option Z -> Z * Z * EVENT_MAP_INFO;
  TdhGetPropertySize :
    EVENT_RECORD -> PROPERTY_DATA_DESCRIPTOR -> Z * Z;
  TdhGetProperty :
    EVENT_RECORD -> PROPERTY_DATA_DESCRIPTOR -> Z -> Z * Z;
  TdhFormatProperty :
    TRACE_EVENT_INFO -> FormatArgs -> FormatReply;
  memory : Z -> Z
}.

(** [n] bytes of memory from address [a]. *)
Definition read_bytes (api : TdhApi) (a n : Z) : list Z :=
  map (fun k => memory api (a + Z.of_nat k)) (seq 0 (Z.to_nat n)).

(** ** The consumer and the world around it *)

(** What leaves the process, in order. *)
Inductive event : Type :=
| GetEventInformation (Buffer : option Z)
| GetEventMapInformation (MapName : string) (Buffer : option Z)
| GetPropertySize (d : PROPERTY_DATA_DESCRIPTOR)
| GetProperty (d : PROPERTY_DATA_DESCRIPTOR) (size : Z)
| FormatProperty (args : FormatArgs)
| Callback (event_id : Z) (out : dict).

(** The attributes of an [EventConsumer] that decoding reads or writes.  A
    callback returns ([None]) or raises. *)
Record EventConsumer : Type := {
  event_callback : option (Z * dict -> option exn);
  vfield_length : option Z;
  index : Z;
  task_name_filters : list string
}.

Record World : Type := {
  self : EventConsumer;
  trace : list event
}.

(** [EventConsumer.__init__] *)
Definition __init__ (event_callback : option (Z * dict -> option exn))
  (task_name_filters : list string) : EventConsumer :=
  {| event_callback := event_callback;
     vfield_length := None;
     index := 0;
     task_name_filters := task_name_filters |}.

(** ** The monad of the methods *)

Definition M (A : Type) : Type := World -> result A * World.

Definition ret {A} (a : A) : M A := fun w => (Return a, w).
Definition raise {A} (e : exn) : M A := fun w => (Raise e, w).
Definition bind {A B} (m : M A) (k : A -> M B) : M B :=
  fun w =>
    match m w with
    | (Return a, w') => k a w'
    | (Raise e, w') => (Raise e, w')
    end.
Definition lift {A} (r : result A) : M A := fun w => (r, w).

Declare Scope py_scope.
Delimit Scope py_scope with py.
Notation "x <- m ;; k" := (bind m (fun x => k))
  (at level 100, m at next level, right associativity) : py_scope.
Notation "m ;;; k" := (bind m (fun _ => k))
  (at level 100, right associativity) : py_scope.
Local Open Scope py_scope.

Definition with_index (s : EventConsumer) (i : Z) : EventConsumer :=
  {| event_callback := event_callback s;
     vfield_length := vfield_length s;
     index := i;
     task_name_filters := task_name_filters s |}.
Definition with_vfield_length (s : EventConsumer) (v : option Z)
  : EventConsumer :=
  {| event_callback := event_callback s;
     vfield_length := v;
     index := index s;
     task_name_filters := task_name_filters s |}.

Definition get_self : M EventConsumer := fun w => (Return (self w), w).
(** [self.index = i] *)
Definition set_index (i : Z) : M unit :=
  fun w => (Return tt, {| self := with_index (self w) i; trace := trace w |}).
(** [self.vfield_length = v] *)
Definition set_vfield_length (v : option Z) : M unit :=
  fun w =>
    (Return tt,
     {| self := with_vfield_length (self w) v; trace := trace w |}).
(** A call that leaves the process is appended to the trace. *)
Definition emit (e : event) : M unit :=
  fun w => (Return tt, {| self := self w; trace := trace w ++ [e] |}).

(** [try: m except ValueError: handler] *)
Definition except_ValueError {A} (m : M A) (handler : M A) : M A :=
  fun w =>
    match m w with
    | (Raise ValueError, w') => handler w'
    | r => r
    end.

(** ** The methods of EventConsumer *)

Section Decoder.

Context {tdh : TdhConstants} {py : PyText}.
Variable api : TdhApi.

(** The truth value of [flags & bit]. *)
Definition flag_set (flags bit : Z) : bool := negb (Z.land flags bit =? 0).

(** [p.contents]: a null pointer raises [ValueError]. *)
Definition contents {A} (p : pointer A) : M A :=
  match p with
  | NULL => raise ValueError
  | Ptr a => ret a
  end.

(** [_getEventInformation(record)] *)
Definition _getEventInformation (record : EVENT_RECORD)
  : M (option (pointer TRACE_EVENT_INFO)) :=
  emit (GetEventInformation None) ;;;
  let '(status, buffer_size, _) := TdhGetEventInformation api record None in
  r <- (if ERROR_INSUFFICIENT_BUFFER =? status then
          let n := DWORD buffer_size in
          emit (GetEventInformation (Some n)) ;;;
          let '(status', _, block) :=
            TdhGetEventInformation api record (Some n) in
          ret (Ptr block, status')
        else ret (NULL, status)) ;;
  let '(info, status) := r in
  if ERROR_NOT_FOUND =? status then ret None
  else if negb (ERROR_SUCCESS =? status) then raise (WinError None)
  else ret (Some info).

(** [_getArraySize(record, info, event_property)].  With
    [PropertyParamCount] set the method evaluates
    [info + event_property_array[j].NameOffset], the sum of a ctypes
    pointer instance and an [int], which raises [TypeError] before any
    TDH call is made ([_getPropertyLength] casts [info] to [c_voidp]
    first).  The docstring allows [None]; no path returns it. *)
Definition _getArraySize (record : EVENT_RECORD) (info : TRACE_EVENT_INFO)
  (event_property : EVENT_PROPERTY_INFO) : M Z :=
  let flags := epi_Flags event_property in
  if flag_set flags PropertyParamCount then raise TypeError
  else if flag_set flags PropertyParamFixedCount then
    raise (ETWException "PropertyParamFixedCount not supported")
  else ret (epi_u2.count event_property).

(** [_getPropertyLength(record, info, event_property)].  The docstring
    allows [None]; no path returns it. *)
Definition _getPropertyLength (record : EVENT_RECORD)
  (info : TRACE_EVENT_INFO) (event_property : EVENT_PROPERTY_INFO)
  : M (option Z) :=
  let flags := epi_Flags event_property in
  if flag_set flags PropertyParamLength then
    let j := DWORD (epi_u3.length event_property) in
    let data_descriptor :=
      {| PropertyName := epi_NameOffset (EventPropertyInfoArray info j);
         ArrayIndex := MAX_UINT |} in
    emit (GetPropertySize data_descriptor) ;;;
    let '(status, property_size) :=
      TdhGetPropertySize api record data_descriptor in
    if negb (ERROR_SUCCESS =? status) then raise (WinError None)
    else
      emit (GetProperty data_descriptor property_size) ;;;
      let '(status, length) :=
        TdhGetProperty api record data_descriptor property_size in
      if negb (ERROR_SUCCESS =? status) then raise (WinError None)
      else ret (Some (DWORD length))
  else
    let in_type := nonStructType.InType event_property in
    let out_type := nonStructType.OutType event_property in
    if (in_type =? TDH_INTYPE_BINARY) && (out_type =? TDH_OUTTYPE_IPV6)
    then ret (Some sizeof_IN6_ADDR)
    else ret (Some (epi_u3.length event_property)).

(** [_getMapInfo(record, info, event_property)] *)
Definition _getMapInfo (record : EVENT_RECORD) (info : TRACE_EVENT_INFO)
  (event_property : EVENT_PROPERTY_INFO)
  : M (option (pointer EVENT_MAP_INFO) * bool) :=
  let map_name :=
    rel_ptr_to_str info (nonStructType.MapNameOffset event_property) in
  emit (GetEventMapInformation map_name None) ;;;
  let '(status, map_size, _) :=
    TdhGetEventMapInformation api record map_name None in
  r <- (if ERROR_INSUFFICIENT_BUFFER =? status then
          let n := DWORD map_size in
          emit (GetEventMapInformation map_name (Some n)) ;;;
          let '(status', _, block) :=
            TdhGetEventMapInformation api record map_name (Some n) in
          ret (Ptr block, status')
        else ret (NULL, status)) ;;
  let '(map_info, status) := r in
  if ERROR_SUCCESS =? status then ret (Some map_info, true)
  else if ERROR_NOT_FOUND =? status then ret (None, true)
  else raise (WinError None).

(** [_handleEvtInvalidEvtData(user_data, user_data_remaining)]: the
    value of the [c_ushort] returned, and the buffer. *)
Definition _handleEvtInvalidEvtData (user_data user_data_remaining : Z)
  : Z * list Z :=
  let buf := c_char_array (user_data_remaining + sizeof_c_wchar) in
  let buf := memmove buf (read_bytes api user_data user_data_remaining) in
  let user_data_consumed := c_ushort user_data_remaining in
  (user_data_consumed, buf).

Definition call_TdhFormatProperty (info : TRACE_EVENT_INFO)
  (args : FormatArgs) : M FormatReply :=
  emit (FormatProperty args) ;;; ret (TdhFormatProperty api info args).

(** [_unpackSimpleType], lines 439-461: map info, property length and
    the pending [vfield_length].  [inl d] is an early [return d]; [inr]
    carries [map_info] and [property_length] to the rest of the method. *)
Definition _unpackSimpleType_length (record : EVENT_RECORD)
  (info : TRACE_EVENT_INFO) (event_property : EVENT_PROPERTY_INFO)
  : M (dict + option (pointer EVENT_MAP_INFO) * Z) :=
  ms <- _getMapInfo record info event_property ;;
  let '(map_info, success) := ms in
  if negb success then ret (inl [])
  else
    pl <- _getPropertyLength record info event_property ;;
    match pl with
    | None => ret (inl [])
    | Some property_length =>
        let name_field := rel_ptr_to_str info (epi_NameOffset event_property) in
        s <- get_self ;;
        match vfield_length s with
        | Some v =>
            if property_length =? 0 then
              if v =? 0 then
                set_vfield_length None ;;;
                ret (inl [(name_field, PyNone)])
              else ret (inr (map_info, v))
            else ret (inr (map_info, property_length))
        | None => ret (inr (map_info, property_length))
        end
    end.

(** The arguments that [_unpackSimpleType] passes to TdhFormatProperty,
    both for the size probe and for the call with a buffer. *)
Definition format_args (record : EVENT_RECORD)
  (event_property : EVENT_PROPERTY_INFO)
  (map_info : option (pointer EVENT_MAP_INFO))
  (property_length user_data user_data_remaining : Z)
  (buffer : option Z) : FormatArgs :=
  {| fa_MapInfo := map_info;
     fa_PointerSize :=
       if flag_set (eh_Flags (EventHeader record))
            EVENT_HEADER_FLAG_32_BIT_HEADER
       then 4 else 8;
     fa_InType := nonStructType.InType event_property;
     fa_OutType := nonStructType.OutType event_property;
     fa_PropertyLength := c_ushort property_length;
     fa_UserDataLength := user_data_remaining;
     fa_UserData := user_data;
     fa_Buffer := buffer |}.

(** [_unpackSimpleType], lines 463-529: the TdhFormatProperty protocol,
    the cursor and the result.  [formatted_data] stands for
    [formatted_data.value]: [None] for the null LPWSTR, a [str] for the
    buffer that the second call filled, [bytes] for the [c_char] buffer
    of [_handleEvtInvalidEvtData]. *)
Definition _unpackSimpleType_format (record : EVENT_RECORD)
  (info : TRACE_EVENT_INFO) (event_property : EVENT_PROPERTY_INFO)
  (map_info : option (pointer EVENT_MAP_INFO)) (property_length : Z)
  : M dict :=
  let name_field := rel_ptr_to_str info (epi_NameOffset event_property) in
  s <- get_self ;;
  user_data <- match UserData record with
               | None => raise TypeError
               | Some p => ret (p + index s)
               end ;;
  let user_data_remaining := UserDataLength record - index s in
  if user_data_remaining <=? 0 then ret []
  else
    let out_type := nonStructType.OutType event_property in
    let args :=
      format_args record event_property map_info property_length
        user_data user_data_remaining in
    r1 <- call_TdhFormatProperty info (args None) ;;
    r <- (if fr_status r1 =? ERROR_INSUFFICIENT_BUFFER then
            r2 <- call_TdhFormatProperty info
                    (args (Some (DWORD (fr_BufferSize r1)))) ;;
            ret (fr_status r2, PyStr (fr_Buffer r2),
                 c_ushort (fr_UserDataConsumed r2))
          else
            ret (fr_status r1, PyNone, c_ushort (fr_UserDataConsumed r1))) ;;
    let '(status, formatted_data, user_data_consumed) := r in
    r <- (if negb (status =? ERROR_SUCCESS) then
            if negb (status =? ERROR_EVT_INVALID_EVENT_DATA) then
              raise (WinError (Some status))
            else
              let '(consumed, buf) :=
                _handleEvtInvalidEvtData user_data user_data_remaining in
              ret (consumed, PyBytes (c_char_array_value buf))
          else ret (user_data_consumed, formatted_data)) ;;
    let '(user_data_consumed, formatted_data) := r in
    s <- get_self ;;
    set_index (index s + user_data_consumed) ;;;
    (if Py.endswith (Py.lower name_field) "length" then
       except_ValueError
         (v <- lift (Py.int10 int_of_str formatted_data) ;;
          set_vfield_length (Some v))
         (set_vfield_length None)
     else ret tt) ;;;
    data <- match TDH_CONVERTER_LOOKUP out_type with
            | Some converter => lift (converter formatted_data)
            | None => ret formatted_data
            end ;;
    ret [(name_field, data)].

(** [_unpackSimpleType(record, info, event_property)] *)
Definition _unpackSimpleType (record : EVENT_RECORD)
  (info : TRACE_EVENT_INFO) (event_property : EVENT_PROPERTY_INFO)
  : M dict :=
  r <- _unpackSimpleType_length record info event_property ;;
  match r with
  | inl d => ret d
  | inr (map_info, property_length) =>
      _unpackSimpleType_format record info event_property
        map_info property_length
  end.

(** [key, value = d]: unpacking iterates the keys of the dict and needs
    exactly two of them. *)
Definition unpack_pair (d : dict) : result (string * string) :=
  match dict_keys d with
  | [key; value] => Return (key, value)
  | _ => Raise ValueError
  end.

(** [range(start, stop)] *)
Definition range (start stop : Z) : list Z :=
  map (fun k => start + Z.of_nat k) (seq 0 (Z.to_nat (stop - start))).

(** The inner loop of [_unpackComplexType] over the members [js]; its
    [break] leaves this loop only. *)
Fixpoint _unpackComplexType_members (record : EVENT_RECORD)
  (info : TRACE_EVENT_INFO) (js : list Z) (out : dict) : M dict :=
  match js with
  | [] => ret out
  | j :: js' =>
      d <- _unpackSimpleType record info (EventPropertyInfoArray info j) ;;
      kv <- lift (unpack_pair d) ;;
      let '(key, value) := kv in
      if is_None (PyStr key) && is_None (PyStr value) then ret out
      else
        _unpackComplexType_members record info js'
          (dict_setitem out key (PyStr value))
  end.

(** The outer loop of [_unpackComplexType]: [n] elements still to do. *)
Fixpoint _unpackComplexType_elements (record : EVENT_RECORD)
  (info : TRACE_EVENT_INFO) (event_property : EVENT_PROPERTY_INFO)
  (n : nat) (out : dict) : M dict :=
  match n with
  | O => ret out
  | S n' =>
      let start_index := structType.StructStartIndex event_property in
      let last_member :=
        start_index + structType.NumOfStructMembers event_property in
      out' <- _unpackComplexType_members record info
                (range start_index last_member) out ;;
      _unpackComplexType_elements record info event_property n' out'
  end.

(** [_unpackComplexType(record, info, event_property)].  [array_size] is
    never [None], so the early [return {}] is not modelled. *)
Definition _unpackComplexType (record : EVENT_RECORD)
  (info : TRACE_EVENT_INFO) (event_property : EVENT_PROPERTY_INFO)
  : M dict :=
  array_size <- _getArraySize record info event_property ;;
  _unpackComplexType_elements record info event_property
    (Z.to_nat array_size) [].

Definition EventHeader_dict (h : EVENT_HEADER) : dict :=
  [("Size", PyInt (eh_Size h));
   ("HeaderType", PyInt (eh_HeaderType h));
   ("Flags", PyInt (eh_Flags h));
   ("EventProperty", PyInt (eh_EventProperty h));
   ("ThreadId", PyInt (eh_ThreadId h));
   ("ProcessId", PyInt (eh_ProcessId h));
   ("TimeStamp", PyInt (eh_TimeStamp h));
   ("ProviderId", PyStr (eh_ProviderId h));
   ("EventDescriptor",
    PyDict
      [("Id", PyInt (ed_Id (eh_EventDescriptor h)));
       ("Version", PyInt (ed_Version (eh_EventDescriptor h)));
       ("Channel", PyInt (ed_Channel (eh_EventDescriptor h)));
       ("Level", PyInt (ed_Level (eh_EventDescriptor h)));
       ("Opcode", PyInt (ed_Opcode (eh_EventDescriptor h)));
       ("Task", PyInt (ed_Task (eh_EventDescriptor h)));
       ("Keyword", PyInt (ed_Keyword (eh_EventDescriptor h)))]);
   ("KernelTime", PyInt (eh_KernelTime h));
   ("UserTime", PyInt (eh_UserTime h));
   ("ActivityId", PyStr (eh_ActivityId h))].

(** One turn of the loop of [_processEvent] over the top-level
    properties: [None] is the [break], [Some out'] goes on. *)
Definition _processEvent_property (record : EVENT_RECORD)
  (info : TRACE_EVENT_INFO) (user_data end_of_user_data : Z)
  (i : Z) (out : dict) : M (option dict) :=
  if user_data =? end_of_user_data then ret None
  else
    let property := EventPropertyInfoArray info i in
    if flag_set (epi_Flags property) PropertyStruct then
      d <- _unpackComplexType record info property ;;
      ret (Some (dict_update out d))
    else
      d <- _unpackSimpleType record info property ;;
      ret (Some (dict_update out d)).

Fixpoint _processEvent_properties (record : EVENT_RECORD)
  (info : TRACE_EVENT_INFO) (user_data end_of_user_data : Z)
  (indices : list Z) (out : dict) : M dict :=
  match indices with
  | [] => ret out
  | i :: indices' =>
      r <- _processEvent_property record info user_data end_of_user_data
             i out ;;
      match r with
      | None => ret out
      | Some out' =>
          _processEvent_properties record info user_data end_of_user_data
            indices' out'
      end
  end.

(** The task name of an event: the provider name when the event has no
    task name, stripped and upper-cased. *)
Definition task_name_of (info : TRACE_EVENT_INFO) : string :=
  let task_name :=
    if tei_TaskNameOffset info =? 0
    then rel_ptr_to_str info (tei_ProviderNameOffset info)
    else rel_ptr_to_str info (tei_TaskNameOffset info) in
  str_upper (str_strip task_name).

(** [x in l] for a list of [str]. *)
Definition str_in (x : string) (l : list string) : bool :=
  existsb (String.eqb x) l.

(** The truth value of a list. *)
Definition truthy {A} (l : list A) : bool :=
  match l with [] => false | _ => true end.

(** [_processEvent(record)] *)
Definition _processEvent (record : EVENT_RECORD) : M unit :=
  r <- _getEventInformation record ;;
  match r with
  | None => ret tt
  | Some p =>
      info <- contents p ;;
      let task_name := task_name_of info in
      let description :=
        rel_ptr_to_str info (tei_EventMessageOffset info) in
      let event_id := ed_Id (tei_EventDescriptor info) in
      s <- get_self ;;
      if truthy (task_name_filters s)
         && negb (str_in task_name (task_name_filters s))
      then ret tt
      else
        let out := [("EventHeader",
                     PyDict (EventHeader_dict (EventHeader record)))] in
        let user_data :=
          match UserData record with
          | None => 0
          | Some a => a
          end in
        let end_of_user_data := user_data + UserDataLength record in
        set_index 0 ;;;
        set_vfield_length None ;;;
        out <- _processEvent_properties record info user_data
                 end_of_user_data
                 (range 0 (tei_TopLevelPropertyCount info)) out ;;
        let out := dict_setitem out "Description" (PyStr description) in
        let out := dict_setitem out "Task Name" (PyStr task_name) in
        s <- get_self ;;
        match event_callback s with
        | Some callback =>
            emit (Callback event_id out) ;;;
            match callback (event_id, out) with
            | Some e => raise e
            | None => ret tt
            end
        | None => ret tt
        end
  end.

(** The status that [_unpackSimpleType] tests after the
    TdhFormatProperty protocol (line 507): that of the second call when
    the size probe answered ERROR_INSUFFICIENT_BUFFER, that of the probe
    otherwise. *)
Definition formatter_status (info : TRACE_EVENT_INFO)
  (args : option Z -> FormatArgs) : Z :=
  let r1 := TdhFormatProperty api info (args None) in
  if fr_status r1 =? ERROR_INSUFFICIENT_BUFFER
  then fr_status (TdhFormatProperty api info
                    (args (Some (DWORD (fr_BufferSize r1)))))
  else fr_status r1.

End Decoder.

(** ** A concrete tracing subsystem

    The values of the Windows SDK headers for the constants, with an
    empty converter table (formatted values are returned as they are), and
    a scripted operating system, to run the decoder on concrete records. *)

Definition sdk : TdhConstants.
Proof.
  refine {| ERROR_SUCCESS := 0;
            ERROR_INSUFFICIENT_BUFFER := 122;
            ERROR_NOT_FOUND := 1168;
            ERROR_EVT_INVALID_EVENT_DATA := 15005;
            PropertyStruct := 1;
            PropertyParamLength := 2;
            PropertyParamCount := 4;
            PropertyParamFixedCount := 32;
            TDH_INTYPE_BINARY := 14;
            TDH_OUTTYPE_IPV6 := 24;
            EVENT_HEADER_FLAG_32_BIT_HEADER := 32;
            MAX_UINT := 4294967295;
            TDH_CONVERTER_LOOKUP := fun _ => None |}.
  discriminate.
Defined.

(** The text operations on ASCII text, for the ASCII records below. *)
Definition ascii_text : PyText.
Proof.
  refine {| str_strip := Py.ascii_strip;
            str_upper := Py.ascii_upper;
            int_of_str := Py.ascii_int |}.
  intros s. unfold has_lower, Py.codes, Py.ascii_upper.
  induction s as [|c s IH]; [reflexivity|].
  cbn [Py.smap list_ascii_of_string map existsb].
  rewrite IH, orb_false_r.
  destruct c as [[] [] [] [] [] [] [] []]; reflexivity.
Defined.



Definition ex_descriptor : EVENT_DESCRIPTOR :=
  {| ed_Id := 7; ed_Version := 1; ed_Channel := 0; ed_Level := 4;
     ed_Opcode := 0; ed_Task := 3; ed_Keyword := 0 |}.

Definition ex_header : EVENT_HEADER :=
  {| eh_Size := 96; eh_HeaderType := 0; eh_Flags := 64;
     eh_EventProperty := 0; eh_ThreadId := 11; eh_ProcessId := 22;
     eh_TimeStamp := 1000; eh_ProviderId := "{provider}";
     eh_EventDescriptor := ex_descriptor; eh_KernelTime := 0;
     eh_UserTime := 0; eh_ActivityId := "{activity}" |}.

(** A record whose payload of [n] bytes starts at address 4096. *)
Definition ex_record (n : Z) : EVENT_RECORD :=
  {| EventHeader := ex_header; UserData := Some 4096; UserDataLength := n |}.

(** Property [i] of the examples: its name is at offset [100 + i]. *)
Definition ex_property (i flags w0 w1 u2 u3 : Z) : EVENT_PROPERTY_INFO :=
  {| epi_Flags := flags; epi_NameOffset := 100 + i; epi_u1_w0 := w0;
     epi_u1_w1 := w1; epi_u1_dw := 0; epi_u2_w := u2; epi_u3_w := u3 |}.

(** A metadata block: provider name at offset 10, task name at 20,
    message at 30, the name of property [i] at [100 + i]; no map name. *)
Definition ex_info (task_offset top : Z) (names : list string)
  (properties : list EVENT_PROPERTY_INFO) : TRACE_EVENT_INFO :=
  {| tei_EventDescriptor := ex_descriptor;
     tei_ProviderNameOffset := 10;
     tei_TaskNameOffset := task_offset;
     tei_EventMessageOffset := 30;
     tei_TopLevelPropertyCount := top;
     EventPropertyInfoArray :=
       fun i => nth (Z.to_nat i) properties (ex_property i 0 0 0 0 0);
     tei_strings :=
       fun off =>
         if off =? 10 then " Provider "
         else if off =? 20 then "task a"
         else if off =? 30 then "message"
         else if off <? 100 then ""
         else nth (Z.to_nat (off - 100)) names "" |}.

(** The formatter of the examples: for the property read at payload
    offset [o], [script] holds [(o, (status, text, consumed))], the
    outcome of the call that is given a buffer; the size probe answers
    ERROR_INSUFFICIENT_BUFFER. *)
Definition ex_format (script : list (Z * (Z * string * Z)))
  (args : FormatArgs) : FormatReply :=
  match find (fun e => fst e =? fa_UserData args - 4096) script with
  | Some (_, (status, text, consumed)) =>
      let size := 2 * (Z.of_nat (String.length text) + 1) in
      match fa_Buffer args with
      | None =>
          {| fr_status := 122; fr_BufferSize := size; fr_Buffer := "";
             fr_UserDataConsumed := 0 |}
      | Some _ =>
          {| fr_status := status; fr_BufferSize := size; fr_Buffer := text;
             fr_UserDataConsumed := consumed |}
      end
  | None =>
      {| fr_status := 87; fr_BufferSize := 0; fr_Buffer := "";
         fr_UserDataConsumed := 0 |}
  end.

(** The operating system of the examples: metadata [info], no map for any
    property, every referenced property of size 4 and value [referenced],
    the formatter [format], the payload [bytes] at address 4096. *)
Definition ex_api (info : TRACE_EVENT_INFO)
  (format : FormatArgs -> FormatReply) (referenced : Z) (bytes : list Z)
  : TdhApi :=
  {| TdhGetEventInformation :=
       fun _ buffer =>
         match buffer with
         | None => (122, 512, info)
         | Some _ => (0, 512, info)
         end;
     TdhGetEventMapInformation := fun _ _ _ => (1168, 0, []);
     TdhGetPropertySize := fun _ _ => (0, 4);
     TdhGetProperty := fun _ _ _ => (0, referenced);
     TdhFormatProperty := fun _ args => format args;
     memory := fun a => nth (Z.to_nat (a - 4096)) bytes 0 |}.

(** A consumer as [__init__] leaves it, and nothing traced yet. *)
Definition ex_world (filters : list string) : World :=
  {| self := __init__ (Some (fun _ => None)) filters; trace := [] |}.

(** The outputs handed to the callback, in order. *)
Definition delivered (t : list event) : list (Z * dict) :=
  flat_map (fun e => match e with
                     | Callback event_id out => [(event_id, out)]
                     | _ => []
                     end) t.

(** The TdhFormatProperty calls made, in order. *)
Definition format_calls (t : list event) : list FormatArgs :=
  flat_map (fun e => match e with
                     | FormatProperty args => [args]
                     | _ => []
                     end) t.

(** An address property of type binary/IPv6 whose length is the value of
    property 0; the operating system reports property 0 as 4 bytes long
    and holding the value 20. *)
Definition c5_info : TRACE_EVENT_INFO :=
  ex_info 20 2 ["AddrLength"; "Addr"]
    [ex_property 0 0 8 8 1 4; ex_property 1 2 14 24 1 0].
Definition c5_api : TdhApi :=
  ex_api c5_info (ex_format []) 20 [20; 0; 0; 0; 10; 0; 0; 1].

(** A structure property flagged both [PropertyParamCount] and
    [PropertyParamFixedCount]. *)
Definition c7_info : TRACE_EVENT_INFO :=
  ex_info 20 2 ["N"; "S"; "m"]
    [ex_property 0 0 8 8 1 4; ex_property 1 (1 + 4 + 32) 2 1 0 0;
     ex_property 2 0 8 8 1 4].
Definition c7_api : TdhApi :=
  ex_api c7_info (ex_format [(0, (0, "2", 4))]) 2 [2; 0; 0; 0].

(** A consumer whose cursor is at [i] with [v] pending, nothing traced. *)
Definition ex_world_at (i : Z) (v : option Z) : World :=
  {| self := with_vfield_length
               (with_index (__init__ (Some (fun _ => None)) []) i) v;
     trace := [] |}.

(** Three scalar properties over a payload of 4 bytes: "ALength" (4 bytes,
    formatted as "0"), "B" (4 bytes) and "C" (declared length 0). *)
Definition c1_info : TRACE_EVENT_INFO :=
  ex_info 20 3 ["ALength"; "B"; "C"]
    [ex_property 0 0 8 1 1 4; ex_property 1 0 8 1 1 4;
     ex_property 2 0 1 1 1 0].
Definition c1_api : TdhApi :=
  ex_api c1_info (ex_format [(0, (0, "0", 4))]) 0 [0; 0; 0; 0].

(** A structure property of 3 elements with the 2 members "m0" and "m1"
    (4 bytes each) over a payload of 24 bytes. *)
Definition c2_info : TRACE_EVENT_INFO :=
  ex_info 20 1 ["S"; "m0"; "m1"]
    [ex_property 0 1 1 2 3 0; ex_property 1 0 8 1 1 4;
     ex_property 2 0 8 1 1 4].
Definition c2_api : TdhApi :=
  ex_api c2_info
    (ex_format [(0, (0, "5", 4)); (4, (0, "6", 4)); (8, (0, "7", 4));
                (12, (0, "8", 4)); (16, (0, "9", 4)); (20, (0, "10", 4))])
    0 [].

(** "DataLength" (4 bytes, formatted as "12"), then "Data" and "Tail",
    both of declared length 0, over a payload of 40 bytes. *)
Definition c3_info : TRACE_EVENT_INFO :=
  ex_info 20 3 ["DataLength"; "Data"; "Tail"]
    [ex_property 0 0 8 1 1 4; ex_property 1 0 14 1 1 0;
     ex_property 2 0 1 1 1 0].
Definition c3_api : TdhApi :=
  ex_api c3_info
    (ex_format [(0, (0, "12", 4)); (4, (0, "abc", 12));
                (16, (0, "xyz", 12))])
    0 [].

(** "FooLength" (4 bytes, formatted as [text]) then "Foo" of declared
    length 0. *)
Definition c4_info : TRACE_EVENT_INFO :=
  ex_info 20 2 ["FooLength"; "Foo"]
    [ex_property 0 0 8 1 1 4; ex_property 1 0 14 1 1 0].
Definition c4_api (text : string) : TdhApi :=
  ex_api c4_info (ex_format [(0, (0, text, 4)); (4, (0, "foo", 12))]) 0 [].

(** "Blob", declared 8 bytes long, over a payload of the 3 bytes "ABC":
    the formatter answers ERROR_EVT_INVALID_EVENT_DATA. *)
Definition c6_info : TRACE_EVENT_INFO :=
  ex_info 20 1 ["Blob"] [ex_property 0 0 14 1 1 8].
Definition c6_api : TdhApi :=
  ex_api c6_info (ex_format [(0, (15005, "", 0))]) 0 [65; 66; 67].


(** ** Observations on a run *)

(** [d.get(k)] *)
Definition dict_get (d : dict) (k : string) : option pyval :=
  option_map snd (find (fun kv => String.eqb (fst kv) k) d).

(** A computation emits [Q] when every event it appends to the trace
    satisfies [Q]. *)
Definition Emits (Q : event -> Prop) {A} (m : M A) : Prop :=
  forall w r w',
    m w = (r, w') -> exists evs, trace w' = trace w ++ evs /\ Forall Q evs.

(** The calls to the TDH library, as opposed to the user's callback. *)
Definition is_tdh_call (e : event) : Prop :=
  match e with
  | Callback _ _ => False
  | _ => True
  end.

Section Observations.

Context {tdh : TdhConstants} {py : PyText}.
Variable api : TdhApi.

(** The status that [_getEventInformation] tests (lines 280 and 284): that
    of the second call when the size probe answered
    ERROR_INSUFFICIENT_BUFFER, that of the probe otherwise. *)
Definition event_information_status (record : EVENT_RECORD) : Z :=
  let '(status, buffer_size, _) := TdhGetEventInformation api record None in
  if ERROR_INSUFFICIENT_BUFFER =? status then
    let '(status', _, _) :=
      TdhGetEventInformation api record (Some (DWORD buffer_size)) in
    status'
  else status.

(** [task_name_filters] lets the task name through: the list is empty or
    holds the name. *)
Definition passes_filter (s : EventConsumer) (info : TRACE_EVENT_INFO)
  : bool :=
  negb (truthy (task_name_filters s)
        && negb (str_in (task_name_of info) (task_name_filters s))).

(** The output of [_processEvent] for a record none of whose properties
    is decoded. *)
Definition header_only_output (record : EVENT_RECORD)
  (info : TRACE_EVENT_INFO) : dict :=
  [("EventHeader", PyDict (EventHeader_dict (EventHeader record)));
   ("Description",
    PyStr (rel_ptr_to_str info (tei_EventMessageOffset info)));
   ("Task Name", PyStr (task_name_of info))].

End Observations.

(** ** Provider keywords: [get_keywords_bitmask] *)

Record PROVIDER_FIELD_INFO : Type := {
  pfi_NameOffset : Z;
  pfi_DescriptionOffset : Z;
  pfi_Value : Z
}.

(** PROVIDER_FIELD_INFOARRAY: the block that
    TdhEnumerateProviderFieldInformation fills; [pfia_strings] gives the
    wide string found at a byte offset of the block. *)
Record PROVIDER_FIELD_INFOARRAY : Type := {
  NumberOfElements : Z;
  FieldType : Z;
  FieldInfoArray : Z -> PROVIDER_FIELD_INFO;
  pfia_strings : Z -> string
}.

(** A [dict] from [str] to [int], in insertion order. *)
Definition keyword_dict : Type := list (string * Z).

Fixpoint keyword_setitem (d : keyword_dict) (k : string) (v : Z)
  : keyword_dict :=
  match d with
  | [] => [(k, v)]
  | (k', v') :: d' =>
      if String.eqb k' k then (k', v) :: d'
      else (k', v') :: keyword_setitem d' k v
  end.

Definition keyword_get (d : keyword_dict) (k : string) : option Z :=
  option_map snd (find (fun kv => String.eqb (fst kv) k) d).

Section Keywords.

Context {tdh : TdhConstants}.

(** [tdh.EventKeywordInformation] and the TDH function
    TdhEnumerateProviderFieldInformation (an answer for each GUID, field
    type and buffer: status, size, block written); neither is part of the
    sources. *)
Variable EventKeywordInformation : Z.
Variable TdhEnumerateProviderFieldInformation :
  GUID -> Z -> option Z -> Z * Z * PROVIDER_FIELD_INFOARRAY.

(** Lines 808-811: the keywords of the provider and their values; a name
    listed twice keeps its later value. *)
Definition provider_keywords (provider_info : PROVIDER_FIELD_INFOARRAY)
  : keyword_dict :=
  fold_left
    (fun d i =>
       let field := FieldInfoArray provider_info i in
       keyword_setitem d
         (pfia_strings provider_info (pfi_NameOffset field))
         (pfi_Value field))
    (range 0 (NumberOfElements provider_info)) [].

(** Lines 813-815 *)
Definition or_keywords (d : keyword_dict) (keywords : list string)
  (bitmask : Z) : Z :=
  fold_left
    (fun bitmask keyword =>
       match keyword_get d keyword with
       | Some v => Z.lor bitmask v
       | None => bitmask
       end)
    keywords bitmask.

(** [get_keywords_bitmask(guid, keywords)]: the result, and the buffer
    argument of each TdhEnumerateProviderFieldInformation call made, in
    order.  The pointer that [ct.cast] returns for the buffer is not null,
    so [if provider_info:] holds whenever the second call was made. *)
Definition get_keywords_bitmask (guid : GUID) (keywords : list string)
  : result Z * list (option Z) :=
  let bitmask := 0 in
  if Nat.eqb (List.length keywords) 0 then (Return bitmask, [])
  else
    let '(status, providers_size, _) :=
      TdhEnumerateProviderFieldInformation guid EventKeywordInformation
        None in
    if status =? ERROR_INSUFFICIENT_BUFFER then
      let n := DWORD providers_size in
      let '(status, _, provider_info) :=
        TdhEnumerateProviderFieldInformation guid EventKeywordInformation
          (Some n) in
      if negb (ERROR_SUCCESS =? status) && negb (ERROR_NOT_FOUND =? status)
      then (Raise (WinError None), [None; Some n])
      else
        (Return (or_keywords (provider_keywords provider_info) keywords
                   bitmask),
         [None; Some n])
    else (Return bitmask, [None]).

(** The keywords that [get_keywords_bitmask] looks its arguments up in:
    those of the block that the second call filled, none when the size
    probe did not answer ERROR_INSUFFICIENT_BUFFER. *)
Definition enumerated_keywords (guid : GUID) : keyword_dict :=
  let '(status, providers_size, _) :=
    TdhEnumerateProviderFieldInformation guid EventKeywordInformation None in
  if status =? ERROR_INSUFFICIENT_BUFFER then
    let '(_, _, provider_info) :=
      TdhEnumerateProviderFieldInformation guid EventKeywordInformation
        (Some (DWORD providers_size)) in
    provider_keywords provider_info
  else [].

(** The second call was made and answered neither ERROR_SUCCESS nor
    ERROR_NOT_FOUND. *)
Definition enumeration_fails (guid : GUID) : bool :=
  let '(status, providers_size, _) :=
    TdhEnumerateProviderFieldInformation guid EventKeywordInformation None in
  if status =? ERROR_INSUFFICIENT_BUFFER then
    let '(status, _, _) :=
      TdhEnumerateProviderFieldInformation guid EventKeywordInformation
        (Some (DWORD providers_size)) in
    negb (ERROR_SUCCESS =? status) && negb (ERROR_NOT_FOUND =? status)
  else false.

(** The name and the value of element [i] of the block. *)
Definition field_name (provider_info : PROVIDER_FIELD_INFOARRAY) (i : Z)
  : string :=
  pfia_strings provider_info
    (pfi_NameOffset (FieldInfoArray provider_info i)).
Definition field_value (provider_info : PROVIDER_FIELD_INFOARRAY) (i : Z)
  : Z :=
  pfi_Value (FieldInfoArray provider_info i).

End Keywords.

(** ** Provider sessions: [EventProvider] *)

(** The fields of the EVENT_TRACE_PROPERTIES structure that a
    [TraceProperties] object wraps and [TraceProperties.__init__] sets. *)
Record TraceProperties : Type := {
  Wnode_BufferSize : Z;
  Wnode_Flags : Z;
  tp_BufferSize : Z;
  MinimumBuffers : Z;
  MaximumBuffers : Z;
  LogFileMode : Z;
  LoggerNameOffset : Z
}.

Record EventProvider : Type := {
  provider_guid : GUID;
  session_name : string;
  session_properties : TraceProperties;
  session_handle : Z;
  level : Z;
  match_any_bitmask : Z;
  match_all_bitmask : Z
}.

(** The calls of [EventProvider] to the operating system. *)
Inductive session_call : Type :=
| StartTraceW (SessionName : string) (Properties : TraceProperties)
| EnableTraceEx2 (TraceHandle : Z) (ProviderId : GUID)
    (ControlCode Level MatchAnyKeyword MatchAllKeyword : Z)
| ControlTraceW (TraceHandle : Z) (InstanceName : string)
    (Properties : TraceProperties) (ControlCode : Z).

Section Sessions.

Context {tdh : TdhConstants}.

(** Constants of etw/evntrace.py, which is not part of the sources. *)
Variable EVENT_CONTROL_CODE_ENABLE_PROVIDER : Z.
Variable EVENT_CONTROL_CODE_DISABLE_PROVIDER : Z.
Variable EVENT_TRACE_CONTROL_STOP : Z.

(** The operating system: its answer to a call after the calls made so
    far, a status and, for StartTraceW, the handle it writes ([None] when
    it writes none). *)
Variable os : list session_call -> session_call -> Z * option Z.

(** [EventProvider.__init__]: [session_handle] is [TRACEHANDLE()]. *)
Definition EventProvider__init__ (provider_guid : GUID)
  (session_name : string) (session_properties : TraceProperties)
  (level match_any_bitmask match_all_bitmask : Z) : EventProvider :=
  {| provider_guid := provider_guid;
     session_name := session_name;
     session_properties := session_properties;
     session_handle := 0;
     level := level;
     match_any_bitmask := match_any_bitmask;
     match_all_bitmask := match_all_bitmask |}.

Definition with_session_handle (p : EventProvider) (h : option Z)
  : EventProvider :=
  match h with
  | None => p
  | Some h =>
      {| provider_guid := provider_guid p;
         session_name := session_name p;
         session_properties := session_properties p;
         session_handle := h;
         level := level p;
         match_any_bitmask := match_any_bitmask p;
         match_all_bitmask := match_all_bitmask p |}
  end.

(** [EventProvider.start()]: the result, the provider and the calls made
    so far. *)
Definition EventProvider_start (p : EventProvider)
  (history : list session_call)
  : result unit * EventProvider * list session_call :=
  let call := StartTraceW (session_name p) (session_properties p) in
  let '(status, handle) := os history call in
  let p := with_session_handle p handle in
  let history := history ++ [call] in
  if negb (status =? ERROR_SUCCESS) then (Raise (WinError None), p, history)
  else
    let call :=
      EnableTraceEx2 (session_handle p) (provider_guid p)
        EVENT_CONTROL_CODE_ENABLE_PROVIDER (level p) (match_any_bitmask p)
        (match_all_bitmask p) in
    let '(status, _) := os history call in
    let history := history ++ [call] in
    if negb (status =? ERROR_SUCCESS)
    then (Raise (WinError None), p, history)
    else (Return tt, p, history).

(** [EventProvider.stop()] *)
Definition EventProvider_stop (p : EventProvider)
  (history : list session_call)
  : result unit * EventProvider * list session_call :=
  if session_handle p =? 0 then (Return tt, p, history)
  else
    let call :=
      EnableTraceEx2 (session_handle p) (provider_guid p)
        EVENT_CONTROL_CODE_DISABLE_PROVIDER (level p) (match_any_bitmask p)
        (match_all_bitmask p) in
    let '(status, _) := os history call in
    let history := history ++ [call] in
    if negb (status =? ERROR_SUCCESS)
    then (Raise (WinError None), p, history)
    else
      let call :=
        ControlTraceW (session_handle p) (session_name p)
          (session_properties p) EVENT_TRACE_CONTROL_STOP in
      let '(status, _) := os history call in
      let history := history ++ [call] in
      if negb (status =? ERROR_SUCCESS)
      then (Raise (WinError None), p, history)
      else (Return tt, p, history).

End Sessions.

(** ** More concrete subsystems *)

(** The operating system of [ex_api], except that the metadata query
    answers [status] at once. *)
Definition ex_api_without_metadata (status : Z) : TdhApi :=
  {| TdhGetEventInformation := fun _ _ => (status, 0, c1_info);
     TdhGetEventMapInformation := fun _ _ _ => (1168, 0, []);
     TdhGetPropertySize := fun _ _ => (0, 4);
     TdhGetProperty := fun _ _ _ => (0, 0);
     TdhFormatProperty := fun _ args => ex_format [] args;
     memory := fun _ => 0 |}.

(** The record of [c6_info] with a formatter that answers 87
    (ERROR_INVALID_PARAMETER) when given a buffer. *)
Definition failing_format_api : TdhApi :=
  ex_api c6_info (ex_format [(0, (87, "", 0))]) 0 [65; 66; 67].

(** A provider with the keywords "read" (1), "write" (2) and, listed
    again, "read" (4); the name of element [i] is at offset [10 * i]. *)
Definition ex_provider_info : PROVIDER_FIELD_INFOARRAY :=
  {| NumberOfElements := 3;
     FieldType := 0;
     FieldInfoArray :=
       fun i =>
         {| pfi_NameOffset := 10 * i;
            pfi_DescriptionOffset := 0;
            pfi_Value := if i =? 0 then 1 else if i =? 1 then 2 else 4 |};
     pfia_strings := fun off => if off =? 10 then "write" else "read" |}.

(** An enumeration that answers the size probe with
    ERROR_INSUFFICIENT_BUFFER and then succeeds, and one whose probe is
    refused with 5 (ERROR_ACCESS_DENIED). *)
Definition ex_enumerate (guid : GUID) (field_type : Z) (buffer : option Z)
  : Z * Z * PROVIDER_FIELD_INFOARRAY :=
  match buffer with
  | None => (122, 64, ex_provider_info)
  | Some _ => (0, 64, ex_provider_info)
  end.
Definition ex_enumerate_refused (guid : GUID) (field_type : Z)
  (buffer : option Z) : Z * Z * PROVIDER_FIELD_INFOARRAY :=
  (5, 0, ex_provider_info).

(** An operating system that accepts every session call and hands out the
    handle 77, and a provider as [__init__] leaves it. *)
Definition ex_os (history : list session_call) (call : session_call)
  : Z * option Z :=
  match call with
  | StartTraceW _ _ => (0, Some 77)
  | _ => (0, None)
  end.
Definition ex_trace_properties : TraceProperties :=
  {| Wnode_BufferSize := 4216; Wnode_Flags := 131072; tp_BufferSize := 1024;
     MinimumBuffers := 0; MaximumBuffers := 0; LogFileMode := 256;
     LoggerNameOffset := 120 |}.
Definition ex_provider : EventProvider :=
  EventProvider__init__ "{provider}" "session" ex_trace_properties 4 0 0.

(** A computation is framed when, started from a consumer, its result,
    the consumer it leaves and the events it appends do not depend on the
    trace so far, and it keeps the callback and the filters. *)
Definition Framed {A} (m : M A) : Prop :=
  forall s, exists r s' evs,
    event_callback s' = event_callback s
    /\ task_name_filters s' = task_name_filters s
    /\ forall t,
        m {| self := s; trace := t |} = (r, {| self := s'; trace := t ++ evs |}).

(** * Properties *)

(** *** Python text *)

Example int10_12 : Py.int10 Py.ascii_int (PyStr " 12 ") = Return 12.
Proof. reflexivity. Qed.
Example int10_neg :
  Py.int10 Py.ascii_int (PyBytes [45; 52; 95; 50]) = Return (-42).
Proof. reflexivity. Qed.
Example int10_bad : Py.int10 Py.ascii_int (PyStr "1__2") = Raise ValueError.
Proof. reflexivity. Qed.
Example int10_separator :
  Py.int10 Py.ascii_int (PyStr (String (Py.chr 28) "12")) = Raise ValueError.
Proof. reflexivity. Qed.
Example int10_none : Py.int10 Py.ascii_int PyNone = Raise TypeError.
Proof. reflexivity. Qed.
Example endswith_length :
  Py.endswith (Py.lower "PayloadLENGTH") "length" = true.
Proof. reflexivity. Qed.
Example strip_upper :
  Py.ascii_upper (Py.ascii_strip "  Tcp Ip ") = "TCP IP".
Proof. reflexivity. Qed.

Section Properties.

Context {tdh : TdhConstants} {py : PyText}.
Variable api : TdhApi.

Ltac run :=
  unfold bind, ret, raise, lift, emit, get_self, set_index,
    set_vfield_length, call_TdhFormatProperty in *; cbn [fst snd self trace] in *.

(** *** Map info *)

Lemma getMapInfo_cases record info event_property w :
  (exists p w',
      _getMapInfo api record info event_property w
      = (Return (Some p, true), w') /\ self w' = self w)
  \/ (exists w',
         _getMapInfo api record info event_property w
         = (Return (None, true), w') /\ self w' = self w)
  \/ (exists w',
         _getMapInfo api record info event_property w
         = (Raise (WinError None), w')).
Proof.
  unfold _getMapInfo. run.
  destruct (TdhGetEventMapInformation api record _ None)
    as [[status map_size] blk].
  destruct (ERROR_INSUFFICIENT_BUFFER =? status).
  - destruct (TdhGetEventMapInformation api record _ (Some _))
      as [[status' map_size'] blk'].
    destruct (ERROR_SUCCESS =? status'); [left; eauto |].
    destruct (ERROR_NOT_FOUND =? status'); [right; left; eauto |].
    right; right; eauto.
  - destruct (ERROR_SUCCESS =? status); [left; eauto |].
    destruct (ERROR_NOT_FOUND =? status); [right; left; eauto |].
    right; right; eauto.
Qed.

Lemma getPropertyLength_cases record info event_property w :
  (exists L w',
      _getPropertyLength api record info event_property w
      = (Return (Some L), w') /\ self w' = self w)
  \/ (exists w',
         _getPropertyLength api record info event_property w
         = (Raise (WinError None), w')).
Proof.
  unfold _getPropertyLength. run.
  destruct (flag_set _ PropertyParamLength).
  - destruct (TdhGetPropertySize api record _) as [status property_size].
    destruct (ERROR_SUCCESS =? status); cbn; [| right; eauto].
    destruct (TdhGetProperty api record _ _) as [status' len].
    destruct (ERROR_SUCCESS =? status'); cbn; [left; eauto | right; eauto].
  - destruct (_ && _); left; eauto.
Qed.

(** *** Map info never reports failure *)

(** C10: [_getMapInfo] returns a pointer paired with [True], or [None]
    paired with [True], or raises: its flag is never [False].  Hence the
    part of [_unpackSimpleType] before the payload is read never takes
    the early [return {}] guarded by [not success] (nor the one guarded by
    [property_length is None]): its only early return is the one-entry
    dictionary of an absent field. *)
Theorem getMapInfo_success_flag_always_true :
  forall record info event_property w,
    ((exists p w',
         _getMapInfo api record info event_property w
         = (Return (Some p, true), w'))
     \/ (exists w',
            _getMapInfo api record info event_property w
            = (Return (None, true), w'))
     \/ (exists w',
            _getMapInfo api record info event_property w
            = (Raise (WinError None), w')))
    /\ match fst (_unpackSimpleType_length api record info event_property w)
       with
       | Return (inl d) =>
           d = [(rel_ptr_to_str info (epi_NameOffset event_property),
                 PyNone)]
       | _ => True
       end.
Proof.
  intros record info event_property w. split.
  - destruct (getMapInfo_cases record info event_property w)
      as [(p & w' & H & _) | [(w' & H & _) | (w' & H)]]; eauto.
  - unfold _unpackSimpleType_length, bind at 1.
    destruct (getMapInfo_cases record info event_property w)
      as [(p & w' & H & _) | [(w' & H & _) | (w' & H)]];
      rewrite H; cbn [negb fst]; try exact I;
      (unfold bind at 1;
       destruct (getPropertyLength_cases record info event_property w')
         as [(L & w2 & H2 & _) | (w2 & H2)];
       rewrite H2; cbn [fst]; try exact I;
       run; destruct (vfield_length (self w2)) as [v |]; cbn; try exact I;
       destruct (L =? 0); cbn; try exact I;
       destruct (v =? 0); cbn; auto).
Qed.

(** *** Length and count resolution *)

(** C5, as the code has it, for a binary property formatted as an IPv6
    address.  When [PropertyParamLength] is not set, its length is 16,
    whatever its declared length and its other flags, and no TDH call is
    made.  When [PropertyParamLength] is set, the property named by the
    length index is queried with [ArrayIndex = MAX_UINT]: the length is
    the value that TdhGetProperty reads for it (a DWORD), read with the
    size that TdhGetPropertySize answered, and [WinError] is raised when
    one of the two queries fails; the consumer is left as it was. *)
Theorem getPropertyLength_ipv6 :
  forall record info event_property w,
    nonStructType.InType event_property = TDH_INTYPE_BINARY ->
    nonStructType.OutType event_property = TDH_OUTTYPE_IPV6 ->
    (flag_set (epi_Flags event_property) PropertyParamLength = false ->
     _getPropertyLength api record info event_property w
     = (Return (Some 16), w))
    /\ (flag_set (epi_Flags event_property) PropertyParamLength = true ->
        let referenced :=
          {| PropertyName :=
               epi_NameOffset
                 (EventPropertyInfoArray info
                    (DWORD (epi_u3.length event_property)));
             ArrayIndex := MAX_UINT |} in
        let size := snd (TdhGetPropertySize api record referenced) in
        let run := _getPropertyLength api record info event_property w in
        fst run
        = (if negb (ERROR_SUCCESS
                    =? fst (TdhGetPropertySize api record referenced))
           then Raise (WinError None)
           else if negb (ERROR_SUCCESS
                         =? fst (TdhGetProperty api record referenced size))
           then Raise (WinError None)
           else Return
                  (Some (DWORD (snd (TdhGetProperty api record referenced
                                       size)))))
        /\ self (snd run) = self w).
Proof.
  intros record info event_property w Hin Hout. split; intros Hflag.
  - unfold _getPropertyLength. rewrite Hflag, Hin, Hout, !Z.eqb_refl.
    reflexivity.
  - cbv zeta. unfold _getPropertyLength. rewrite Hflag. run.
    destruct (TdhGetPropertySize api record _) as [status property_size].
    cbn [fst snd].
    destruct (ERROR_SUCCESS =? status); cbn; [| split; reflexivity].
    destruct (TdhGetProperty api record _ _) as [status' len].
    cbn [fst snd].
    destruct (ERROR_SUCCESS =? status'); cbn; split; reflexivity.
Qed.

(** C7, as the code has it: a property flagged [PropertyParamFixedCount]
    and not [PropertyParamCount] makes [_getArraySize] raise
    [ETWException], and [_unpackComplexType] lets it through. *)
Theorem getArraySize_fixed_count_unsupported :
  forall record info event_property w,
    flag_set (epi_Flags event_property) PropertyParamCount = false ->
    flag_set (epi_Flags event_property) PropertyParamFixedCount = true ->
    _getArraySize record info event_property w
    = (Raise (ETWException "PropertyParamFixedCount not supported"), w)
    /\ _unpackComplexType api record info event_property w
       = (Raise (ETWException "PropertyParamFixedCount not supported"), w).
Proof.
  intros record info event_property w Hcount Hfixed.
  unfold _unpackComplexType, bind, _getArraySize.
  rewrite Hcount, Hfixed. split; reflexivity.
Qed.

(** *** The scalar decoder before the payload is read *)

Lemma format_calls_app t1 t2 :
  format_calls (t1 ++ t2) = format_calls t1 ++ format_calls t2.
Proof. unfold format_calls. now rewrite flat_map_app. Qed.

Lemma getMapInfo_no_format record info event_property w r w' :
  _getMapInfo api record info event_property w = (r, w') ->
  self w' = self w /\ format_calls (trace w') = format_calls (trace w).
Proof.
  unfold _getMapInfo. run.
  destruct (TdhGetEventMapInformation api record _ None)
    as [[status map_size] blk].
  destruct (ERROR_INSUFFICIENT_BUFFER =? status).
  - destruct (TdhGetEventMapInformation api record _ (Some _))
      as [[status' map_size'] blk'].
    destruct (ERROR_SUCCESS =? status'); [| destruct (ERROR_NOT_FOUND =? status')];
      intros [= <- <-]; cbn; rewrite !format_calls_app, !app_nil_r; auto.
  - destruct (ERROR_SUCCESS =? status); [| destruct (ERROR_NOT_FOUND =? status)];
      intros [= <- <-]; cbn; rewrite !format_calls_app, !app_nil_r; auto.
Qed.

Lemma getPropertyLength_no_format record info event_property w r w' :
  _getPropertyLength api record info event_property w = (r, w') ->
  self w' = self w /\ format_calls (trace w') = format_calls (trace w).
Proof.
  unfold _getPropertyLength. run.
  destruct (flag_set _ PropertyParamLength).
  - destruct (TdhGetPropertySize api record _) as [status property_size].
    destruct (ERROR_SUCCESS =? status); cbn.
    + destruct (TdhGetProperty api record _ _) as [status' len].
      destruct (ERROR_SUCCESS =? status'); cbn;
        intros [= <- <-]; cbn; rewrite !format_calls_app, !app_nil_r; auto.
    + intros [= <- <-]; cbn; rewrite !format_calls_app, !app_nil_r; auto.
  - destruct (_ && _); intros [= <- <-]; auto.
Qed.

(** What lines 439-461 return, from what the two resolvers return. *)
Lemma unpackSimpleType_length_run record info event_property w m w1 L w2 :
  _getMapInfo api record info event_property w = (Return (m, true), w1) ->
  _getPropertyLength api record info event_property w1
  = (Return (Some L), w2) ->
  _unpackSimpleType_length api record info event_property w
  = match vfield_length (self w) with
    | Some v =>
        if L =? 0 then
          if v =? 0 then
            (Return
               (inl [(rel_ptr_to_str info (epi_NameOffset event_property),
                      PyNone)]),
             {| self := with_vfield_length (self w) None;
                trace := trace w2 |})
          else (Return (inr (m, v)), w2)
        else (Return (inr (m, L)), w2)
    | None => (Return (inr (m, L)), w2)
    end.
Proof.
  intros Hm HL.
  destruct (getMapInfo_no_format _ _ _ _ _ _ Hm) as [Hs1 _].
  destruct (getPropertyLength_no_format _ _ _ _ _ _ HL) as [Hs2 _].
  unfold _unpackSimpleType_length, bind at 1. rewrite Hm. cbn [negb].
  unfold bind at 1. rewrite HL. run.
  rewrite Hs2, Hs1.
  destruct (vfield_length (self w)) as [v |]; [| reflexivity].
  destruct (L =? 0); [| reflexivity].
  destruct (v =? 0); cbn; rewrite ?Hs2, ?Hs1; reflexivity.
Qed.

(** When lines 439-461 go on to the payload, the consumer is as it was
    and no formatter call was made. *)
Lemma unpackSimpleType_length_inr record info event_property w m L w1 :
  _unpackSimpleType_length api record info event_property w
  = (Return (inr (m, L)), w1) ->
  self w1 = self w /\ format_calls (trace w1) = format_calls (trace w).
Proof.
  unfold _unpackSimpleType_length, bind at 1.
  destruct (_getMapInfo api record info event_property w) as [r wa] eqn:Hm.
  destruct (getMapInfo_no_format _ _ _ _ _ _ Hm) as [Hs1 Hf1].
  destruct r as [[m' success] | e]; [| discriminate].
  destruct success; cbn [negb]; [| discriminate].
  unfold bind at 1.
  destruct (_getPropertyLength api record info event_property wa)
    as [r wb] eqn:HL.
  destruct (getPropertyLength_no_format _ _ _ _ _ _ HL) as [Hs2 Hf2].
  destruct r as [[L' |] | e]; try discriminate.
  run. destruct (vfield_length (self wb)) as [v |].
  - destruct (L' =? 0); [destruct (v =? 0) |];
      intros [= <- <- <-]; split; congruence.
  - intros [= <- <- <-]; split; congruence.
Qed.

(** *** The scalar decoder on the payload *)

Ltac split_ifs :=
  repeat match goal with
    | |- context [if ?b then _ else _] => destruct b eqn:?
    | |- context [match ?x with Return _ => _ | Raise _ => _ end] =>
        destruct x as [? | []] eqn:?
    | |- context [match ?x with Some _ => _ | None => _ end] =>
        destruct x eqn:?
    end; cbn.

Lemma unpackSimpleType_format_exhausted record info event_property m L w p :
  UserData record = Some p ->
  UserDataLength record - index (self w) <= 0 ->
  _unpackSimpleType_format api record info event_property m L w
  = (Return [], w).
Proof.
  intros Hp Hrem. unfold _unpackSimpleType_format. run. rewrite Hp. run.
  destruct (Z.leb_spec (UserDataLength record - index (self w)) 0);
    [reflexivity | lia].
Qed.

(** With payload left, the formatter is called once or twice, always
    with the arguments [format_args]. *)
Lemma unpackSimpleType_format_calls record info event_property m L w p :
  UserData record = Some p ->
  0 < UserDataLength record - index (self w) ->
  exists r w' calls,
    _unpackSimpleType_format api record info event_property m L w = (r, w')
    /\ trace w' = trace w ++ map FormatProperty calls
    /\ calls <> []
    /\ Forall (fun a => exists b,
                   a = format_args record event_property m L
                         (p + index (self w))
                         (UserDataLength record - index (self w)) b)
         calls.
Proof.
  intros Hp Hrem. unfold _unpackSimpleType_format. run. rewrite Hp. run.
  destruct (Z.leb_spec (UserDataLength record - index (self w)) 0);
    [lia |].
  unfold except_ValueError. run.
  set (args := format_args record event_property m L (p + index (self w))
                 (UserDataLength record - index (self w))).
  destruct (fr_status (TdhFormatProperty api info (args None))
            =? ERROR_INSUFFICIENT_BUFFER) eqn:Hprobe; cbn.
  - set (a2 := args (Some _)).
    split_ifs;
      (do 2 eexists; exists [args None; a2];
       split; [reflexivity |];
       split; [cbn; now rewrite <- ?app_assoc |];
       split; [discriminate |];
       repeat constructor; eexists; reflexivity).
  - split_ifs;
      (do 2 eexists; exists [args None];
       split; [reflexivity |];
       split; [cbn; now rewrite <- ?app_assoc |];
       split; [discriminate |];
       repeat constructor; eexists; reflexivity).
Qed.

Lemma format_calls_map calls :
  format_calls (map FormatProperty calls) = calls.
Proof.
  unfold format_calls.
  induction calls as [| a calls IH]; cbn; [reflexivity | now f_equal].
Qed.

(** C4, as the code has it: for a property whose resolved length is 0
    while [vfield_length] holds [v].  If [v] is 0 the result is the field
    name with [None], the cursor offset is unchanged, [vfield_length] is
    cleared and the formatter is not called.  If [v] is not 0 and payload
    is left, every formatter call of this decode (there is at least one)
    is given the length [v mod 65536], which is [v] itself for
    [0 < v < 65536]. *)
Theorem pending_length_on_zero_length_property :
  forall record info event_property w m w1 w2 v,
    _getMapInfo api record info event_property w = (Return (m, true), w1) ->
    _getPropertyLength api record info event_property w1
    = (Return (Some 0), w2) ->
    vfield_length (self w) = Some v ->
    (v = 0 ->
     _unpackSimpleType api record info event_property w
     = (Return [(rel_ptr_to_str info (epi_NameOffset event_property),
                 PyNone)],
        {| self := with_vfield_length (self w) None; trace := trace w2 |})
     /\ format_calls (trace w2) = format_calls (trace w))
    /\ (v <> 0 ->
        forall p,
          UserData record = Some p ->
          0 < UserDataLength record - index (self w) ->
          exists r w3 calls,
            _unpackSimpleType api record info event_property w = (r, w3)
            /\ format_calls (trace w3) = format_calls (trace w) ++ calls
            /\ calls <> []
            /\ Forall (fun a =>
                         fa_PropertyLength a = v mod 65536
                         /\ (0 < v < 65536 -> fa_PropertyLength a = v))
                 calls).
Proof.
  intros record info event_property w m w1 w2 v Hm HL Hv.
  pose proof (unpackSimpleType_length_run _ _ _ _ _ _ _ _ Hm HL) as Hlen.
  destruct (getMapInfo_no_format _ _ _ _ _ _ Hm) as [Hs1 Hf1].
  destruct (getPropertyLength_no_format _ _ _ _ _ _ HL) as [Hs2 Hf2].
  rewrite Hv in Hlen. cbn in Hlen. split.
  - intros ->. cbn in Hlen. split; [| congruence].
    unfold _unpackSimpleType, bind. rewrite Hlen. reflexivity.
  - intros Hnz p Hp Hrem.
    destruct (Z.eqb_spec v 0) as [| _]; [contradiction |].
    assert (Hidx : index (self w2) = index (self w)) by congruence.
    destruct (unpackSimpleType_format_calls record info event_property
                m v w2 p Hp) as (r & w3 & calls & Hrun & Htr & Hne & Hall).
    { rewrite Hidx. exact Hrem. }
    exists r, w3, calls. split; [| split; [| split]].
    + unfold _unpackSimpleType, bind. rewrite Hlen. exact Hrun.
    + rewrite Htr, format_calls_app, format_calls_map. congruence.
    + exact Hne.
    + eapply Forall_impl; [| exact Hall].
      intros a [b ->]. cbn. unfold c_ushort. split; [reflexivity |].
      intros Hv'. apply Z.mod_small. lia.
Qed.

(** The early return of lines 468 to 473: a scalar decode that reaches
    the payload (map info and length resolved, the field not absent,
    [UserData] not null) with no unread byte left returns the empty
    dictionary, leaves the consumer as it was and does not call the
    formatter; the turn of the loop of [_processEvent] for that property
    does not raise, and an output it hands on is the output it was
    given. *)
Theorem unpackSimpleType_empty_when_payload_exhausted :
  forall record info event_property w m L w1 p,
    _unpackSimpleType_length api record info event_property w
    = (Return (inr (m, L)), w1) ->
    UserData record = Some p ->
    UserDataLength record - index (self w) <= 0 ->
    _unpackSimpleType api record info event_property w = (Return [], w1)
    /\ self w1 = self w
    /\ format_calls (trace w1) = format_calls (trace w)
    /\ forall i user_data end_of_user_data out,
        EventPropertyInfoArray info i = event_property ->
        flag_set (epi_Flags event_property) PropertyStruct = false ->
        exists r w',
          _processEvent_property api record info user_data
            end_of_user_data i out w = (Return r, w')
          /\ forall out', r = Some out' -> out' = out.
Proof.
  intros record info event_property w m L w1 p Hlen Hp Hrem.
  destruct (unpackSimpleType_length_inr _ _ _ _ _ _ _ Hlen) as [Hs Hf].
  assert (Hrun : _unpackSimpleType api record info event_property w
                 = (Return [], w1)).
  { unfold _unpackSimpleType, bind. rewrite Hlen.
    apply unpackSimpleType_format_exhausted with (p := p); [exact Hp |].
    rewrite Hs. exact Hrem. }
  repeat split; auto.
  intros i user_data end_of_user_data out Hi Hstruct.
  unfold _processEvent_property.
  destruct (user_data =? end_of_user_data).
  - exists None, w. split; [reflexivity | discriminate].
  - rewrite Hi, Hstruct. unfold bind. rewrite Hrun.
    exists (Some out), w1. split; [reflexivity |].
    now intros out' [= <-].
Qed.

(** *** Fragments *)

Local Arguments _handleEvtInvalidEvtData : simpl never.




(** *** What a scalar decode returns and what it leaves pending *)

Lemma unpackSimpleType_length_cases record info event_property w :
  (exists e w',
      _unpackSimpleType_length api record info event_property w
      = (Raise e, w') /\ self w' = self w)
  \/ (exists w',
         _unpackSimpleType_length api record info event_property w
         = (Return
              (inl [(rel_ptr_to_str info (epi_NameOffset event_property),
                     PyNone)]), w')
         /\ vfield_length (self w) = Some 0
         /\ self w' = with_vfield_length (self w) None)
  \/ (exists m L w',
         _unpackSimpleType_length api record info event_property w
         = (Return (inr (m, L)), w') /\ self w' = self w).
Proof.
  destruct (getMapInfo_cases record info event_property w)
    as [(p & wa & Hm & Hsa) | [(wa & Hm & Hsa) | (wa & Hm)]].
  3: { left. exists (WinError None), wa.
       destruct (getMapInfo_no_format _ _ _ _ _ _ Hm) as [Hs _].
       unfold _unpackSimpleType_length, bind. now rewrite Hm. }
  all: destruct (getPropertyLength_cases record info event_property wa)
      as [(L & wb & HL & Hsb) | (wb & HL)].
  all: try (left; exists (WinError None), wb;
            destruct (getPropertyLength_no_format _ _ _ _ _ _ HL) as [Hs _];
            unfold _unpackSimpleType_length, bind; rewrite Hm; cbn;
            rewrite HL; split; [reflexivity | congruence]).
  all: rewrite (unpackSimpleType_length_run _ _ _ _ _ _ _ _ Hm HL).
  all: destruct (vfield_length (self w)) as [v |] eqn:Hv;
    [destruct (L =? 0); [destruct (Z.eqb_spec v 0) |] |].
  all: try (right; right; do 3 eexists; split; [reflexivity | congruence]).
  all: right; left; eexists; split; [reflexivity |]; split;
    [congruence | reflexivity].
Qed.

(** The payload part returns at most one entry. *)
Lemma unpackSimpleType_format_result record info event_property m L w :
  forall d w',
    _unpackSimpleType_format api record info event_property m L w
    = (Return d, w') ->
    unpack_pair d = Raise ValueError.
Proof.
  intros d w'.
  unfold _unpackSimpleType_format, except_ValueError,
    _handleEvtInvalidEvtData. run.
  destruct (UserData record); cbn; [| discriminate].
  split_ifs; first [discriminate | intros [= <- <-]; reflexivity].
Qed.

Lemma unpackSimpleType_result record info event_property w :
  match fst (_unpackSimpleType api record info event_property w) with
  | Return d => unpack_pair d = Raise ValueError
  | Raise _ => True
  end.
Proof.
  unfold _unpackSimpleType, bind.
  destruct (unpackSimpleType_length_cases record info event_property w)
    as [(e & w' & H & _) | [(w' & H & _) | (m & L & w' & H & _)]];
    rewrite H.
  - exact I.
  - reflexivity.
  - destruct (_unpackSimpleType_format api record info event_property
                m L w') as [[d | e] w2] eqn:Hf; [| exact I].
    exact (unpackSimpleType_format_result _ _ _ _ _ _ _ _ Hf).
Qed.

(** The payload part writes [vfield_length] only for a property whose
    name ends in "length". *)
Lemma unpackSimpleType_format_vfield record info event_property m L w :
  Py.endswith
    (Py.lower (rel_ptr_to_str info (epi_NameOffset event_property)))
    "length" = false ->
  vfield_length
    (self (snd (_unpackSimpleType_format api record info event_property
                  m L w)))
  = vfield_length (self w).
Proof.
  intros Hname.
  unfold _unpackSimpleType_format, except_ValueError,
    _handleEvtInvalidEvtData. run. rewrite Hname.
  destruct (UserData record); cbn; [| reflexivity].
  split_ifs; reflexivity.
Qed.

(** X9: a pending length other than 0 is still pending after the scalar
    decode of any property whose name does not end in "length", whether
    the decode used it or not, returned or raised. *)
Lemma unpackSimpleType_keeps_pending_length record info event_property w v :
  Py.endswith
    (Py.lower (rel_ptr_to_str info (epi_NameOffset event_property)))
    "length" = false ->
  vfield_length (self w) = Some v ->
  v <> 0 ->
  vfield_length
    (self (snd (_unpackSimpleType api record info event_property w)))
  = Some v.
Proof.
  intros Hname Hv Hnz. unfold _unpackSimpleType, bind.
  destruct (unpackSimpleType_length_cases record info event_property w)
    as [(e & w' & H & Hs) | [(w' & H & Hz & _) | (m & L & w' & H & Hs)]];
    rewrite H; cbn [snd].
  - congruence.
  - congruence.
  - rewrite unpackSimpleType_format_vfield by exact Hname. congruence.
Qed.

(** *** The structure decoder *)

Lemma unpackComplexType_members_result record info js out w :
  match fst (_unpackComplexType_members api record info js out w) with
  | Return d => d = out
  | Raise _ => True
  end.
Proof.
  destruct js as [| j js]; cbn; [reflexivity |].
  unfold bind at 1.
  pose proof (unpackSimpleType_result record info
                (EventPropertyInfoArray info j) w) as Hd.
  destruct (_unpackSimpleType api record info _ w) as [[d | e] w'];
    cbn in *; [| exact I].
  unfold bind, lift. rewrite Hd. exact I.
Qed.

Lemma unpackComplexType_elements_result record info event_property n :
  forall out w,
    match fst (_unpackComplexType_elements api record info event_property
                 n out w) with
    | Return d => d = out
    | Raise _ => True
    end.
Proof.
  induction n as [| n IH]; intros out w; cbn; [reflexivity |].
  unfold bind.
  pose proof (unpackComplexType_members_result record info
                (range (structType.StructStartIndex event_property)
                   (structType.StructStartIndex event_property
                    + structType.NumOfStructMembers event_property))
                out w) as Hm.
  destruct (_unpackComplexType_members api record info _ out w)
    as [[d | e] w']; cbn in *; [| exact I].
  subst d. apply IH.
Qed.

(** Whenever [_unpackComplexType] returns, it returns the empty
    dictionary: with an element and a member to decode it raises, at
    [key, value = self._unpackSimpleType(...)] if not before. *)
Lemma unpackComplexType_returns_nothing record info event_property w :
  match fst (_unpackComplexType api record info event_property w) with
  | Return d => d = []
  | Raise _ => True
  end.
Proof.
  unfold _unpackComplexType, bind.
  destruct (_getArraySize record info event_property w) as [[n | e] w'];
    cbn; [| exact I].
  apply unpackComplexType_elements_result.
Qed.

(** *** The record decoder: filtering *)

Lemma getEventInformation_run record :
  exists r evs,
    Forall (fun e => exists b, e = GetEventInformation b) evs
    /\ forall w,
        _getEventInformation api record w
        = (r, {| self := self w; trace := trace w ++ evs |}).
Proof.
  unfold _getEventInformation. run.
  destruct (TdhGetEventInformation api record None)
    as [[status buffer_size] blk].
  destruct (ERROR_INSUFFICIENT_BUFFER =? status).
  - destruct (TdhGetEventInformation api record (Some _))
      as [[status' size'] blk'].
    exists (if ERROR_NOT_FOUND =? status' then Return None
            else if negb (ERROR_SUCCESS =? status') then Raise (WinError None)
                 else Return (Some (Ptr blk'))),
      [GetEventInformation None;
       GetEventInformation (Some (DWORD buffer_size))].
    split; [repeat constructor; eauto |].
    intros w. cbn. rewrite <- app_assoc.
    destruct (ERROR_NOT_FOUND =? status'); [reflexivity |].
    destruct (ERROR_SUCCESS =? status'); reflexivity.
  - exists (if ERROR_NOT_FOUND =? status then Return None
            else if negb (ERROR_SUCCESS =? status) then Raise (WinError None)
                 else Return (Some NULL)),
      [GetEventInformation None].
    split; [repeat constructor; eauto |].
    intros w.
    destruct (ERROR_NOT_FOUND =? status); [reflexivity |].
    destruct (ERROR_SUCCESS =? status); reflexivity.
Qed.

Lemma str_in_In x l : str_in x l = true <-> In x l.
Proof.
  unfold str_in. rewrite existsb_exists. split.
  - intros (y & Hy & Heq). apply String.eqb_eq in Heq. now subst.
  - intros Hin. exists x. split; [exact Hin | apply String.eqb_refl].
Qed.

(** C8: when the metadata of a record resolves and the task name of
    the event (the provider name when [TaskNameOffset] is 0), stripped
    and upper-cased by [str.strip] and [str.upper] whatever its script,
    is not in a non-empty [task_name_filters],
    [_processEvent] returns at once: the consumer is unchanged and the
    only calls that left the process are those of
    TdhGetEventInformation, so neither the callback nor
    TdhFormatProperty was called. *)
Theorem processEvent_filters_by_task_name :
  forall record w info w1,
    _getEventInformation api record w = (Return (Some (Ptr info)), w1) ->
    task_name_filters (self w) <> [] ->
    ~ In (str_upper
            (str_strip
               (if tei_TaskNameOffset info =? 0
                then rel_ptr_to_str info (tei_ProviderNameOffset info)
                else rel_ptr_to_str info (tei_TaskNameOffset info))))
         (task_name_filters (self w)) ->
    _processEvent api record w = (Return tt, w1)
    /\ self w1 = self w
    /\ (exists evs,
          trace w1 = trace w ++ evs
          /\ Forall (fun e => exists b, e = GetEventInformation b) evs)
    /\ delivered (trace w1) = delivered (trace w)
    /\ format_calls (trace w1) = format_calls (trace w).
Proof.
  intros record w info w1 Hinfo Hne Hnotin.
  destruct (getEventInformation_run record) as (r & evs & Hevs & Hrun).
  rewrite Hrun in Hinfo. injection Hinfo as -> <-.
  assert (Hquiet : delivered (trace w ++ evs) = delivered (trace w)
                   /\ format_calls (trace w ++ evs) = format_calls (trace w)).
  { unfold delivered, format_calls.
    rewrite !flat_map_app.
    assert (Hnil : flat_map (fun e => match e with
                                       | Callback event_id out =>
                                           [(event_id, out)]
                                       | _ => []
                                       end) evs = []
                   /\ flat_map (fun e => match e with
                                         | FormatProperty args => [args]
                                         | _ => []
                                         end) evs = []).
    { clear Hrun. induction Hevs as [| e evs [b ->] _ [IH1 IH2]];
        cbn; [auto |]. now rewrite IH1, IH2. }
    destruct Hnil as [-> ->]. now rewrite !app_nil_r. }
  split; [| split; [reflexivity | split; [now exists evs | exact Hquiet]]].
  unfold _processEvent, bind at 1. rewrite Hrun. cbn [contents].
  run. fold (task_name_of info) in Hnotin.
  destruct (task_name_filters (self w)) as [| f fs] eqn:Hf;
    [contradiction |].
  cbn [truthy andb].
  destruct (str_in (task_name_of info) (f :: fs)) eqn:Hin.
  - apply str_in_In in Hin. contradiction.
  - reflexivity.
Qed.

(** *** The record decoder: no state across records *)

Lemma framed_ret {A} (a : A) : Framed (ret a).
Proof.
  intros s. exists (Return a), s, []. repeat split.
  intros t. now rewrite app_nil_r.
Qed.

Lemma framed_raise {A} (e : exn) : Framed (@raise A e).
Proof.
  intros s. exists (Raise e), s, []. repeat split.
  intros t. now rewrite app_nil_r.
Qed.

Lemma framed_lift {A} (r : result A) : Framed (lift r).
Proof.
  intros s. exists r, s, []. repeat split.
  intros t. now rewrite app_nil_r.
Qed.

Lemma framed_emit (e : event) : Framed (emit e).
Proof. intros s. exists (Return tt), s, [e]. repeat split. Qed.

Lemma framed_get_self : Framed get_self.
Proof.
  intros s. exists (Return s), s, []. repeat split.
  intros t. now rewrite app_nil_r.
Qed.

Lemma framed_set_index i : Framed (set_index i).
Proof.
  intros s. exists (Return tt), (with_index s i), []. repeat split.
  intros t. now rewrite app_nil_r.
Qed.

Lemma framed_set_vfield_length v : Framed (set_vfield_length v).
Proof.
  intros s. exists (Return tt), (with_vfield_length s v), []. repeat split.
  intros t. now rewrite app_nil_r.
Qed.

Lemma framed_bind {A B} (m : M A) (k : A -> M B) :
  Framed m -> (forall a, Framed (k a)) -> Framed (bind m k).
Proof.
  intros Hm Hk s.
  destruct (Hm s) as (r & s1 & evs1 & Hc1 & Hf1 & Hrun1).
  destruct r as [a | e].
  - destruct (Hk a s1) as (r2 & s2 & evs2 & Hc2 & Hf2 & Hrun2).
    exists r2, s2, (evs1 ++ evs2).
    split; [congruence | split; [congruence |]].
    intros t. unfold bind. rewrite Hrun1, Hrun2. now rewrite app_assoc.
  - exists (Raise e), s1, evs1. repeat split; auto.
    intros t. unfold bind. now rewrite Hrun1.
Qed.

Lemma framed_except_ValueError {A} (m handler : M A) :
  Framed m -> Framed handler -> Framed (except_ValueError m handler).
Proof.
  intros Hm Hh s.
  destruct (Hm s) as (r & s1 & evs1 & Hc1 & Hf1 & Hrun1).
  destruct (Hh s1) as (r2 & s2 & evs2 & Hc2 & Hf2 & Hrun2).
  assert (Hplain :
            (forall t,
                except_ValueError m handler {| self := s; trace := t |}
                = (r, {| self := s1; trace := t ++ evs1 |}))
            -> exists r' s' evs,
              event_callback s' = event_callback s
              /\ task_name_filters s' = task_name_filters s
              /\ forall t,
                  except_ValueError m handler {| self := s; trace := t |}
                  = (r', {| self := s'; trace := t ++ evs |})).
  { intros H. exists r, s1, evs1. auto. }
  destruct r as [a | []];
    try (apply Hplain; intros t; unfold except_ValueError;
         now rewrite Hrun1).
  exists r2, s2, (evs1 ++ evs2).
  split; [congruence | split; [congruence |]].
  intros t. unfold except_ValueError. rewrite Hrun1, Hrun2.
  now rewrite app_assoc.
Qed.

Ltac framed :=
  repeat first
    [ apply framed_ret | apply framed_raise | apply framed_lift
    | apply framed_emit | apply framed_get_self | apply framed_set_index
    | apply framed_set_vfield_length | assumption
    | apply framed_except_ValueError
    | apply framed_bind; [| intros ?]
    | match goal with
      | |- Framed (match ?x with _ => _ end) => destruct x
      end ].

Lemma framed_getMapInfo record info event_property :
  Framed (_getMapInfo api record info event_property).
Proof. unfold _getMapInfo. framed. Qed.

Lemma framed_getPropertyLength record info event_property :
  Framed (_getPropertyLength api record info event_property).
Proof. unfold _getPropertyLength. framed. Qed.

Lemma framed_getArraySize record info event_property :
  Framed (_getArraySize record info event_property).
Proof. unfold _getArraySize. framed. Qed.

Lemma framed_unpackSimpleType record info event_property :
  Framed (_unpackSimpleType api record info event_property).
Proof.
  pose proof (framed_getMapInfo record info event_property).
  pose proof (framed_getPropertyLength record info event_property).
  unfold _unpackSimpleType, _unpackSimpleType_length,
    _unpackSimpleType_format, call_TdhFormatProperty.
  framed.
Qed.

Lemma framed_unpackComplexType_members record info js :
  forall out, Framed (_unpackComplexType_members api record info js out).
Proof.
  induction js as [| j js IH]; intros out; cbn [_unpackComplexType_members].
  - framed.
  - pose proof (framed_unpackSimpleType record info
                  (EventPropertyInfoArray info j)).
    framed. apply IH.
Qed.

Lemma framed_unpackComplexType_elements record info event_property n :
  forall out,
    Framed (_unpackComplexType_elements api record info event_property
              n out).
Proof.
  induction n as [| n IH]; intros out; cbn [_unpackComplexType_elements].
  - framed.
  - apply framed_bind; [apply framed_unpackComplexType_members |].
    intros out'. apply IH.
Qed.

Lemma framed_unpackComplexType record info event_property :
  Framed (_unpackComplexType api record info event_property).
Proof.
  unfold _unpackComplexType.
  apply framed_bind; [apply framed_getArraySize |].
  intros n. apply framed_unpackComplexType_elements.
Qed.

Lemma framed_processEvent_properties record info user_data end_of_user_data
  indices :
  forall out,
    Framed (_processEvent_properties api record info user_data
              end_of_user_data indices out).
Proof.
  induction indices as [| i indices IH]; intros out;
    cbn [_processEvent_properties].
  - framed.
  - pose proof (framed_unpackSimpleType record info
                  (EventPropertyInfoArray info i)).
    pose proof (framed_unpackComplexType record info
                  (EventPropertyInfoArray info i)).
    unfold _processEvent_property. framed; apply IH.
Qed.

(** The part of [_processEvent] after the cursor is reset. *)
Lemma framed_processEvent_decode record info out description task_name
  event_id user_data end_of_user_data :
  Framed
    (set_index 0 ;;;
     set_vfield_length None ;;;
     out <- _processEvent_properties api record info user_data
              end_of_user_data
              (range 0 (tei_TopLevelPropertyCount info)) out ;;
     let out := dict_setitem out "Description" (PyStr description) in
     let out := dict_setitem out "Task Name" (PyStr task_name) in
     s <- get_self ;;
     match event_callback s with
     | Some callback =>
         emit (Callback event_id out) ;;;
         match callback (event_id, out) with
         | Some e => raise e
         | None => ret tt
         end
     | None => ret tt
     end).
Proof.
  framed. apply framed_processEvent_properties.
Qed.

Lemma reset_cursor {A} (k : M A) s t :
  (set_index 0 ;;; set_vfield_length None ;;; k) {| self := s; trace := t |}
  = k {| self := with_vfield_length (with_index s 0) None; trace := t |}.
Proof. reflexivity. Qed.

(** The outcome of [_processEvent] and the events it appends depend on
    the consumer only through its callback and its filters: neither the
    cursor offset nor the pending length that an earlier record left
    behind is read. *)
Lemma processEvent_ignores_cursor record s1 s2 :
  event_callback s1 = event_callback s2 ->
  task_name_filters s1 = task_name_filters s2 ->
  exists r evs s1' s2',
    (forall t, _processEvent api record {| self := s1; trace := t |}
               = (r, {| self := s1'; trace := t ++ evs |}))
    /\ (forall t, _processEvent api record {| self := s2; trace := t |}
                  = (r, {| self := s2'; trace := t ++ evs |}))
    /\ event_callback s1' = event_callback s1
    /\ task_name_filters s1' = task_name_filters s1
    /\ event_callback s2' = event_callback s2
    /\ task_name_filters s2' = task_name_filters s2.
Proof.
  intros Hcb Hfl.
  destruct (getEventInformation_run record) as (r & evs & _ & Hrun).
  assert (Hstop :
            forall r0,
              (forall s t,
                  _processEvent api record {| self := s; trace := t |}
                  = (r0, {| self := s; trace := t ++ evs |}))
              -> exists r evs s1' s2',
                (forall t, _processEvent api record {| self := s1; trace := t |}
                           = (r, {| self := s1'; trace := t ++ evs |}))
                /\ (forall t,
                       _processEvent api record {| self := s2; trace := t |}
                       = (r, {| self := s2'; trace := t ++ evs |}))
                /\ event_callback s1' = event_callback s1
                /\ task_name_filters s1' = task_name_filters s1
                /\ event_callback s2' = event_callback s2
                /\ task_name_filters s2' = task_name_filters s2).
  { intros r0 H. exists r0, evs, s1, s2. repeat split; auto. }
  destruct r as [[[| info] |] | e].
  - (* a null pointer: [info.contents] raises *)
    apply (Hstop (Raise ValueError)). intros s t.
    unfold _processEvent, bind. rewrite Hrun. reflexivity.
  - set (filtered := fun s : EventConsumer =>
                       truthy (task_name_filters s)
                       && negb (str_in (task_name_of info)
                                  (task_name_filters s))).
    destruct (filtered s1) eqn:Hfiltered.
    + exists (Return tt), evs, s1, s2. repeat split; auto; intros t;
        unfold _processEvent, bind at 1; rewrite Hrun; cbn [contents]; run;
        fold (task_name_of info); [| rewrite <- Hfl];
        fold (filtered s1); rewrite Hfiltered; reflexivity.
    + destruct (framed_processEvent_decode record info
                  [("EventHeader",
                    PyDict (EventHeader_dict (EventHeader record)))]
                  (rel_ptr_to_str info (tei_EventMessageOffset info))
                  (task_name_of info)
                  (ed_Id (tei_EventDescriptor info))
                  match UserData record with
                  | Some a => a
                  | None => 0
                  end
                  (match UserData record with
                   | Some a => a
                   | None => 0
                   end + UserDataLength record) s1)
        as (r & s' & evs' & Hc & Hf & Hdecode).
      assert (Hdecode2 := Hdecode).
      exists r, (evs ++ evs'), s', s'.
      split; [| split; [| repeat split; congruence]]; intros t;
        unfold _processEvent, bind at 1; rewrite Hrun; cbn [contents];
        unfold bind at 1, ret at 1; unfold bind at 1, get_self at 1;
        cbn [self trace]; fold (task_name_of info).
      * fold (filtered s1). rewrite Hfiltered, Hdecode.
        now rewrite app_assoc.
      * rewrite <- Hfl. fold (filtered s1). rewrite Hfiltered.
        rewrite app_assoc, <- (Hdecode (t ++ evs)), !reset_cursor.
        replace (with_vfield_length (with_index s2 0) None)
          with (with_vfield_length (with_index s1 0) None);
          [reflexivity |].
        unfold with_index, with_vfield_length. cbn. now rewrite Hcb, Hfl.
  - apply (Hstop (Return tt)). intros s t.
    unfold _processEvent, bind. rewrite Hrun. reflexivity.
  - apply (Hstop (Raise e)). intros s t.
    unfold _processEvent, bind. rewrite Hrun. reflexivity.
Qed.

(** C9: decoding a record twice in a row gives the same outcome and
    appends the same events, among them the same call of the callback
    with the same output mapping: [_processEvent] resets [index] and
    [vfield_length] before it reads them, so nothing that the first
    decode left in the consumer reaches the second. *)
Theorem processEvent_twice_same_output :
  forall record w,
    exists r evs w1 w2,
      _processEvent api record w = (r, w1)
      /\ trace w1 = trace w ++ evs
      /\ _processEvent api record w1 = (r, w2)
      /\ trace w2 = trace w1 ++ evs
      /\ delivered (trace w2) = delivered (trace w1) ++ delivered evs
      /\ delivered (trace w1) = delivered (trace w) ++ delivered evs.
Proof.
  intros record [s t].
  destruct (processEvent_ignores_cursor record s s eq_refl eq_refl)
    as (r & evs & s1 & _ & Hrun & _ & Hcb & Hfl & _).
  destruct (processEvent_ignores_cursor record s s1)
    as (r' & evs' & s1' & s2 & Hrun' & Hrun2 & _); [congruence .. |].
  pose proof (Hrun t) as H1. rewrite (Hrun' t) in H1.
  injection H1 as -> _ Hevs. apply app_inv_head in Hevs. subst evs'.
  exists r, evs, {| self := s1; trace := t ++ evs |},
    {| self := s2; trace := (t ++ evs) ++ evs |}.
  cbn [trace]. unfold delivered. rewrite !flat_map_app.
  repeat split; auto.
Qed.

End Properties.

(** * The decoder on concrete records *)

(** C1 fails on the record of [c1_info].  "ALength" consumes the 4
    bytes of the payload and leaves 0 pending.  The decode of "B" finds
    no byte left and returns the empty dictionary, but [_processEvent]
    does not stop there: the guard of its loop compares [user_data] with
    [end_of_user_data], and [user_data] is never advanced, so the loop
    goes on to "C", whose decode, with no byte left either, returns the
    one-entry dictionary of an absent field, and "C" is part of the
    output handed to the callback. *)
Theorem later_property_decoded_after_empty_result :
  let record := ex_record 4 in
  let decode i := @_unpackSimpleType sdk ascii_text c1_api record c1_info
                    (EventPropertyInfoArray c1_info i) in
  let w1 := snd (decode 0 (ex_world [])) in
  let w2 := snd (decode 1 w1) in
  UserDataLength record - index (self w1) = 0
  /\ fst (decode 1 w1) = Return []
  /\ UserDataLength record - index (self w2) = 0
  /\ fst (decode 2 w2) = Return [("C", PyNone)]
  /\ fst (@_processEvent sdk ascii_text c1_api record (ex_world [])) = Return tt
  /\ map (fun o => dict_keys (snd o))
       (delivered
          (trace (snd (@_processEvent sdk ascii_text
                         c1_api record (ex_world [])))))
     = [["EventHeader"; "ALength"; "C"; "Description"; "Task Name"]].
Proof. vm_compute. repeat split; reflexivity. Qed.

(** The decode of "B" on the record of [c1_info], once "ALength" has
    consumed the payload. *)
Lemma unpackSimpleType_empty_when_payload_exhausted_witness :
  @_unpackSimpleType sdk ascii_text c1_api (ex_record 4) c1_info
    (EventPropertyInfoArray c1_info 1) (ex_world_at 4 (Some 0))
  = (Return [],
     {| self := self (ex_world_at 4 (Some 0));
        trace := [GetEventMapInformation "" None] |}).
Proof.
  refine (proj1 (@unpackSimpleType_empty_when_payload_exhausted sdk ascii_text
                   c1_api
                   (ex_record 4) c1_info (EventPropertyInfoArray c1_info 1)
                   (ex_world_at 4 (Some 0)) None 4 _ 4096 _ _ _)).
  - reflexivity.
  - reflexivity.
  - cbn. lia.
Defined.

(** C2 fails on the structure property of [c2_info] (3 elements of 2
    members): the scalar decode of the first member returns a one-entry
    dictionary, unpacking it into [key, value] raises [ValueError], and so
    do [_unpackComplexType] and [_processEvent]: nothing is handed to
    the callback. *)
Theorem unpackComplexType_raises_on_first_member :
  let record := ex_record 24 in
  let property := EventPropertyInfoArray c2_info 0 in
  epi_u2.count property = 3
  /\ structType.NumOfStructMembers property = 2
  /\ fst (@_unpackSimpleType sdk ascii_text c2_api record c2_info
            (EventPropertyInfoArray c2_info 1) (ex_world []))
     = Return [("m0", PyStr "5")]
  /\ unpack_pair [("m0", PyStr "5")] = Raise ValueError
  /\ fst (@_unpackComplexType sdk ascii_text c2_api record c2_info property
            (ex_world []))
     = Raise ValueError
  /\ fst (@_processEvent sdk ascii_text
            c2_api record (ex_world [])) = Raise ValueError
  /\ delivered (trace (snd (@_processEvent sdk ascii_text
                              c2_api record (ex_world []))))
     = [].
Proof. vm_compute. repeat split; reflexivity. Qed.

(** C3 fails on the record of [c3_info]: "DataLength" leaves 12 pending,
    the decode of "Data" (declared length 0) uses it and leaves it
    pending, and the decode of "Tail" (declared length 0) uses it
    again. *)
Theorem pending_length_survives_its_use :
  let record := ex_record 40 in
  let decode i := @_unpackSimpleType sdk ascii_text c3_api record c3_info
                    (EventPropertyInfoArray c3_info i) in
  let w1 := snd (decode 0 (ex_world [])) in
  let w2 := snd (decode 1 w1) in
  let w3 := snd (decode 2 w2) in
  vfield_length (self w1) = Some 12
  /\ fst (decode 1 w1) = Return [("Data", PyStr "abc")]
  /\ vfield_length (self w2) = Some 12
  /\ fst (decode 2 w2) = Return [("Tail", PyStr "xyz")]
  /\ map fa_PropertyLength (format_calls (trace w3)) = [4; 4; 12; 12; 12; 12]
  /\ map fa_PropertyLength
       (format_calls
          (trace (snd (@_processEvent sdk ascii_text
                         c3_api record (ex_world [])))))
     = [4; 4; 12; 12; 12; 12].
Proof. vm_compute. repeat split; reflexivity. Qed.

(** C4, as stated, fails in two ways.  With 65548 pending, "Foo" is
    formatted with the length 12, which is 65548 modulo 65536.  With 12
    pending and no payload byte left, "Foo" is not formatted at all. *)
Lemma pending_length_wraps_or_is_not_used :
  (fst (@_processEvent sdk ascii_text
          (c4_api "65548") (ex_record 40) (ex_world []))
   = Return tt
   /\ vfield_length
        (self (snd (@_unpackSimpleType sdk ascii_text
                      (c4_api "65548") (ex_record 40)
                      c4_info (EventPropertyInfoArray c4_info 0)
                      (ex_world []))))
      = Some 65548
   /\ map fa_PropertyLength
        (format_calls
           (trace (snd (@_processEvent sdk ascii_text
                          (c4_api "65548") (ex_record 40)
                          (ex_world [])))))
      = [4; 4; 12; 12])
  /\ (@_getPropertyLength sdk (c4_api "12") (ex_record 4) c4_info
        (EventPropertyInfoArray c4_info 1) (ex_world_at 4 (Some 12))
      = (Return (Some 0), ex_world_at 4 (Some 12))
      /\ fst (@_unpackSimpleType sdk ascii_text
                (c4_api "12") (ex_record 4) c4_info
                (EventPropertyInfoArray c4_info 1) (ex_world_at 4 (Some 12)))
         = Return []
      /\ format_calls
           (trace (snd (@_unpackSimpleType sdk ascii_text
                          (c4_api "12") (ex_record 4)
                          c4_info (EventPropertyInfoArray c4_info 1)
                          (ex_world_at 4 (Some 12)))))
         = []).
Proof. vm_compute. repeat split; reflexivity. Qed.

(** "Foo" on a payload of 40 bytes, with 12 pending. *)
Lemma pending_length_on_zero_length_property_witness :
  exists r w3 calls,
    @_unpackSimpleType sdk ascii_text (c4_api "12") (ex_record 40) c4_info
      (EventPropertyInfoArray c4_info 1) (ex_world_at 4 (Some 12)) = (r, w3)
    /\ format_calls (trace w3) = [] ++ calls
    /\ calls <> []
    /\ Forall (fun a => fa_PropertyLength a = 12 mod 65536
                        /\ (0 < 12 < 65536 -> fa_PropertyLength a = 12))
         calls.
Proof.
  refine (proj2 (@pending_length_on_zero_length_property sdk ascii_text
                   (c4_api "12")
                   (ex_record 40) c4_info (EventPropertyInfoArray c4_info 1)
                   (ex_world_at 4 (Some 12)) None
                   {| self := self (ex_world_at 4 (Some 12));
                      trace := [GetEventMapInformation "" None] |}
                   {| self := self (ex_world_at 4 (Some 12));
                      trace := [GetEventMapInformation "" None] |}
                   12 _ _ _) _ 4096 _ _).
  - reflexivity.
  - reflexivity.
  - reflexivity.
  - discriminate.
  - reflexivity.
  - cbn. lia.
Defined.

(** C5, as stated, fails on the property "Addr" of [c5_info]: binary,
    formatted as an IPv6 address and flagged [PropertyParamLength], its
    length is neither 16 nor the size 4 of the property it refers to,
    but the value 20 of that property. *)
Lemma getPropertyLength_ipv6_with_length_reference :
  let property := EventPropertyInfoArray c5_info 1 in
  let referenced :=
    {| PropertyName := epi_NameOffset (EventPropertyInfoArray c5_info 0);
       ArrayIndex := @MAX_UINT sdk |} in
  nonStructType.InType property = @TDH_INTYPE_BINARY sdk
  /\ nonStructType.OutType property = @TDH_OUTTYPE_IPV6 sdk
  /\ @flag_set (epi_Flags property) (@PropertyParamLength sdk) = true
  /\ TdhGetPropertySize c5_api (ex_record 8) referenced = (0, 4)
  /\ TdhGetProperty c5_api (ex_record 8) referenced 4 = (0, 20)
  /\ @_getPropertyLength sdk c5_api (ex_record 8) c5_info property
       (ex_world [])
     = (Return (Some 20),
        {| self := self (ex_world []);
           trace := [GetPropertySize referenced;
                     GetProperty referenced 4] |}).
Proof. vm_compute. repeat split; reflexivity. Qed.

(** A binary/IPv6 property of declared length 4, flagged
    [PropertyParamFixedCount] only. *)
Lemma getPropertyLength_ipv6_witness :
  @_getPropertyLength sdk c5_api (ex_record 16) c5_info
    (ex_property 1 32 14 24 1 4) (ex_world [])
  = (Return (Some 16), ex_world []).
Proof.
  refine (proj1 (@getPropertyLength_ipv6 sdk c5_api
                   (ex_record 16) c5_info (ex_property 1 32 14 24 1 4)
                   (ex_world []) _ _) _); reflexivity.
Defined.



(** C7, as stated, fails on the property "S" of [c7_info], flagged both
    [PropertyParamCount] and [PropertyParamFixedCount]: resolving its
    count raises [TypeError], and so does [_processEvent]. *)
Lemma getArraySize_fixed_count_with_count_reference :
  let property := EventPropertyInfoArray c7_info 1 in
  @flag_set (epi_Flags property) (@PropertyParamFixedCount sdk) = true
  /\ @flag_set (epi_Flags property) (@PropertyParamCount sdk) = true
  /\ fst (@_getArraySize sdk (ex_record 4) c7_info property (ex_world []))
     = Raise TypeError
  /\ fst (@_processEvent sdk ascii_text c7_api (ex_record 4) (ex_world []))
     = Raise TypeError.
Proof. vm_compute. repeat split; reflexivity. Qed.

(** A structure property flagged [PropertyParamFixedCount] and not
    [PropertyParamCount]. *)
Lemma getArraySize_fixed_count_unsupported_witness :
  @_getArraySize sdk (ex_record 4) c7_info (ex_property 1 (1 + 32) 2 1 0 0)
    (ex_world [])
  = (Raise (ETWException "PropertyParamFixedCount not supported"),
     ex_world []).
Proof.
  refine (proj1 (@getArraySize_fixed_count_unsupported sdk ascii_text c7_api
                   (ex_record 4) c7_info (ex_property 1 (1 + 32) 2 1 0 0)
                   (ex_world []) _ _)); reflexivity.
Defined.

(** C8 on the record of [c1_info], whose task name is "TASK A", with the
    filter ["OTHER"]. *)
Lemma processEvent_filters_by_task_name_witness :
  @_processEvent sdk ascii_text c1_api (ex_record 4) (ex_world ["OTHER"])
  = (Return tt,
     {| self := self (ex_world ["OTHER"]);
        trace := [GetEventInformation None;
                  GetEventInformation (Some 512)] |}).
Proof.
  refine (proj1 (@processEvent_filters_by_task_name sdk ascii_text
                   c1_api (ex_record 4)
                   (ex_world ["OTHER"]) c1_info _ _ _ _)).
  - reflexivity.
  - discriminate.
  - cbn. intros [H | []]. discriminate H.
Defined.

(** * More properties of the decoder *)

Section RecordDecoder.

Context {tdh : TdhConstants} {py : PyText}.
Variable api : TdhApi.

(** *** Dictionaries *)

Lemma dict_keys_setitem_in d k v :
  In k (dict_keys d) -> dict_keys (dict_setitem d k v) = dict_keys d.
Proof.
  unfold dict_keys.
  induction d as [| [k' v'] d IH]; cbn; [contradiction |].
  destruct (String.eqb_spec k' k) as [-> | Hne]; cbn; [reflexivity |].
  intros [H | H]; [contradiction | now rewrite (IH H)].
Qed.

Lemma dict_keys_setitem_new d k v :
  ~ In k (dict_keys d) -> dict_keys (dict_setitem d k v) = dict_keys d ++ [k].
Proof.
  unfold dict_keys.
  induction d as [| [k' v'] d IH]; cbn; [reflexivity |].
  intros Hnot. destruct (String.eqb_spec k' k) as [-> | Hne]; cbn.
  - exfalso. auto.
  - now rewrite IH by auto.
Qed.

Lemma dict_setitem_NoDup d k v :
  NoDup (dict_keys d) -> NoDup (dict_keys (dict_setitem d k v)).
Proof.
  intros Hnd. destruct (in_dec string_dec k (dict_keys d)) as [Hin | Hnot].
  - now rewrite dict_keys_setitem_in.
  - rewrite dict_keys_setitem_new by exact Hnot.
    apply NoDup_app; [exact Hnd | repeat constructor; auto |].
    intros x Hx [<- | []]. contradiction.
Qed.

Lemma dict_setitem_first d k v first :
  hd_error (dict_keys d) = Some first ->
  hd_error (dict_keys (dict_setitem d k v)) = Some first.
Proof.
  destruct d as [| [k' v'] d]; cbn; [discriminate |].
  destruct (String.eqb k' k); auto.
Qed.

Lemma dict_update_invariant (P : dict -> Prop) d other :
  (forall d k v, P d -> P (dict_setitem d k v)) -> P d ->
  P (dict_update d other).
Proof.
  intros Hstep. unfold dict_update. revert d.
  induction other as [| [k v] other IH]; cbn; auto.
Qed.

Lemma dict_get_setitem_same d k v : dict_get (dict_setitem d k v) k = Some v.
Proof.
  unfold dict_get.
  induction d as [| [k' v'] d IH]; cbn; [now rewrite String.eqb_refl |].
  destruct (String.eqb k' k) eqn:Heq; cbn; rewrite Heq; [reflexivity | exact IH].
Qed.

Lemma dict_get_setitem_other d k v k' :
  k <> k' -> dict_get (dict_setitem d k v) k' = dict_get d k'.
Proof.
  intros Hne. unfold dict_get.
  induction d as [| [k0 v0] d IH]; cbn.
  - destruct (String.eqb_spec k k'); [contradiction | reflexivity].
  - destruct (String.eqb_spec k0 k) as [-> | Hne0]; cbn.
    + destruct (String.eqb_spec k k'); [contradiction | reflexivity].
    + destruct (String.eqb k0 k'); [reflexivity | exact IH].
Qed.

(** *** What the decoder appends to the trace *)

Lemma emits_ret Q {A} (a : A) : Emits Q (ret a).
Proof. intros w r w' [= <- <-]. exists []. now rewrite app_nil_r. Qed.

Lemma emits_raise Q {A} (e : exn) : Emits Q (@raise A e).
Proof. intros w r w' [= <- <-]. exists []. now rewrite app_nil_r. Qed.

Lemma emits_lift Q {A} (x : result A) : Emits Q (lift x).
Proof. intros w r w' [= <- <-]. exists []. now rewrite app_nil_r. Qed.

Lemma emits_get_self Q : Emits Q get_self.
Proof. intros w r w' [= <- <-]. exists []. now rewrite app_nil_r. Qed.

Lemma emits_set_index Q i : Emits Q (set_index i).
Proof. intros w r w' [= <- <-]. exists []. cbn. now rewrite app_nil_r. Qed.

Lemma emits_set_vfield_length Q v : Emits Q (set_vfield_length v).
Proof. intros w r w' [= <- <-]. exists []. cbn. now rewrite app_nil_r. Qed.

Lemma emits_emit (Q : event -> Prop) e : Q e -> Emits Q (emit e).
Proof. intros He w r w' [= <- <-]. exists [e]. cbn. auto. Qed.

Lemma emits_bind Q {A B} (m : M A) (k : A -> M B) :
  Emits Q m -> (forall a, Emits Q (k a)) -> Emits Q (bind m k).
Proof.
  intros Hm Hk w r w'. unfold bind.
  destruct (m w) as [[a | e] w1] eqn:Hrun; intros H.
  - destruct (Hm _ _ _ Hrun) as (evs1 & Ht1 & Hq1).
    destruct (Hk _ _ _ _ H) as (evs2 & Ht2 & Hq2).
    exists (evs1 ++ evs2). rewrite Ht2, Ht1, app_assoc.
    split; [reflexivity | now apply Forall_app].
  - injection H as <- <-. exact (Hm _ _ _ Hrun).
Qed.

Lemma emits_except_ValueError Q {A} (m handler : M A) :
  Emits Q m -> Emits Q handler -> Emits Q (except_ValueError m handler).
Proof.
  intros Hm Hh w r w'. unfold except_ValueError.
  destruct (m w) as [[a | e] w1] eqn:Hrun.
  - intros [= <- <-]. exact (Hm _ _ _ Hrun).
  - destruct (Hm _ _ _ Hrun) as (evs1 & Ht1 & Hq1).
    destruct e; try (intros [= <- <-]; eauto).
    intros H. destruct (Hh _ _ _ H) as (evs2 & Ht2 & Hq2).
    exists (evs1 ++ evs2). rewrite Ht2, Ht1, app_assoc.
    split; [reflexivity | now apply Forall_app].
Qed.

Ltac emits :=
  repeat first
    [ apply emits_ret | apply emits_raise | apply emits_lift
    | apply emits_get_self | apply emits_set_index
    | apply emits_set_vfield_length | assumption
    | apply emits_emit; exact I
    | apply emits_except_ValueError
    | apply emits_bind; [| intros ?]
    | match goal with
      | |- Emits _ (match ?x with _ => _ end) => destruct x
      end ].

Lemma emits_unpackSimpleType record info event_property :
  Emits is_tdh_call (_unpackSimpleType api record info event_property).
Proof.
  unfold _unpackSimpleType, _unpackSimpleType_length, _getMapInfo,
    _getPropertyLength, _unpackSimpleType_format, call_TdhFormatProperty.
  emits.
Qed.

Lemma emits_unpackComplexType_members record info js :
  forall out,
    Emits is_tdh_call (_unpackComplexType_members api record info js out).
Proof.
  induction js as [| j js IH]; intros out; cbn [_unpackComplexType_members].
  - emits.
  - pose proof (emits_unpackSimpleType record info
                  (EventPropertyInfoArray info j)).
    emits. apply IH.
Qed.

Lemma emits_unpackComplexType record info event_property :
  Emits is_tdh_call (_unpackComplexType api record info event_property).
Proof.
  unfold _unpackComplexType, _getArraySize.
  assert (H : forall n out,
             Emits is_tdh_call
               (_unpackComplexType_elements api record info event_property
                  n out)).
  { induction n as [| n IH]; intros out; cbn [_unpackComplexType_elements].
    - emits.
    - apply emits_bind; [apply emits_unpackComplexType_members |].
      intros out'. apply IH. }
  emits; apply H.
Qed.

Lemma emits_processEvent_properties record info user_data end_of_user_data
  indices :
  forall out,
    Emits is_tdh_call
      (_processEvent_properties api record info user_data end_of_user_data
         indices out).
Proof.
  induction indices as [| i indices IH]; intros out;
    cbn [_processEvent_properties].
  - emits.
  - pose proof (emits_unpackSimpleType record info
                  (EventPropertyInfoArray info i)).
    pose proof (emits_unpackComplexType record info
                  (EventPropertyInfoArray info i)).
    unfold _processEvent_property. emits; apply IH.
Qed.

Lemma delivered_tdh_calls evs :
  Forall is_tdh_call evs -> delivered evs = [].
Proof.
  unfold delivered.
  induction 1 as [| e evs He _ IH]; cbn; [reflexivity |].
  rewrite IH. destruct e; cbn in *; [reflexivity .. | contradiction].
Qed.

(** What the loop over the properties hands on satisfies every property
    of the output that [d[k] = v] preserves. *)
Lemma processEvent_properties_invariant (P : dict -> Prop) record info
  user_data end_of_user_data indices :
  (forall d k v, P d -> P (dict_setitem d k v)) ->
  forall out w out' w',
    P out ->
    _processEvent_properties api record info user_data end_of_user_data
      indices out w = (Return out', w') ->
    P out'.
Proof.
  intros Hstep.
  induction indices as [| i indices IH]; intros out w out' w' Hout;
    cbn [_processEvent_properties].
  - now intros [= <- <-].
  - unfold bind at 1, _processEvent_property.
    destruct (user_data =? end_of_user_data); [now intros [= <- <-] |].
    destruct (flag_set _ PropertyStruct); unfold bind at 1;
      match goal with
      | |- context [?m w] =>
          destruct (m w) as [[d | e] w1]; [| discriminate]
      end;
      cbn; apply IH; now apply dict_update_invariant.
Qed.

(** *** Records without a schema, and records without a payload *)

(** X1: when the metadata query of a record does not end in
    ERROR_SUCCESS, [_processEvent] decodes nothing and never calls the
    callback: it returns silently on ERROR_NOT_FOUND and raises [WinError]
    on every other status, the consumer is as it was, and the only calls
    made are those of TdhGetEventInformation. *)
Theorem processEvent_without_metadata :
  forall record w,
    event_information_status api record <> ERROR_SUCCESS ->
    exists evs,
      Forall (fun e => exists b, e = GetEventInformation b) evs
      /\ _processEvent api record w
         = (if ERROR_NOT_FOUND =? event_information_status api record
            then Return tt
            else Raise (WinError None),
            {| self := self w; trace := trace w ++ evs |}).
Proof.
  intros record w. unfold event_information_status.
  destruct (getEventInformation_run api record) as (r & evs & Hevs & Hrun).
  exists evs. split; [exact Hevs |].
  unfold _processEvent, bind at 1. rewrite Hrun.
  specialize (Hrun w). revert H Hrun.
  unfold _getEventInformation, bind, emit, ret, raise.
  destruct (TdhGetEventInformation api record None)
    as [[status buffer_size] blk].
  destruct (ERROR_INSUFFICIENT_BUFFER =? status).
  - destruct (TdhGetEventInformation api record (Some _))
      as [[status' size'] blk'].
    intros Hst. destruct (ERROR_NOT_FOUND =? status').
    + now intros [= <- _].
    + destruct (Z.eqb_spec ERROR_SUCCESS status'); [congruence |].
      now intros [= <- _].
  - intros Hst. destruct (ERROR_NOT_FOUND =? status).
    + now intros [= <- _].
    + destruct (Z.eqb_spec ERROR_SUCCESS status); [congruence |].
      now intros [= <- _].
Qed.

Lemma processEvent_properties_empty_payload record info user_data indices
  out w :
  _processEvent_properties api record info user_data (user_data + 0)
    indices out w = (Return out, w).
Proof.
  destruct indices as [| i indices]; cbn; [reflexivity |].
  unfold bind, _processEvent_property.
  now rewrite Z.add_0_r, Z.eqb_refl.
Qed.

(** X2: a record whose [UserDataLength] is 0, whose metadata resolves and
    whose task name passes the filters is decoded without looking at any
    property, whether [UserData] is null or not: no TDH call is made
    after the metadata query, the cursor is reset, and the callback, if
    there is one, is called once with the event id and the three fixed
    entries "EventHeader", "Description" and "Task Name", in this
    order. *)
Theorem processEvent_empty_payload :
  forall record w info w1,
    _getEventInformation api record w = (Return (Some (Ptr info)), w1) ->
    passes_filter (self w) info = true ->
    UserDataLength record = 0 ->
    let event_id := ed_Id (tei_EventDescriptor info) in
    let out := header_only_output record info in
    _processEvent api record w
    = match event_callback (self w) with
      | Some callback =>
          (match callback (event_id, out) with
           | Some e => Raise e
           | None => Return tt
           end,
           {| self := with_vfield_length (with_index (self w) 0) None;
              trace := trace w1 ++ [Callback event_id out] |})
      | None =>
          (Return tt,
           {| self := with_vfield_length (with_index (self w) 0) None;
              trace := trace w1 |})
      end.
Proof.
  intros record w info w1 Hinfo Hpass Hlen event_id out.
  destruct (getEventInformation_run api record) as (r & evs & _ & Hrun).
  rewrite Hrun in Hinfo. injection Hinfo as -> <-.
  unfold _processEvent, bind at 1. rewrite Hrun. cbn [contents].
  unfold bind at 1, ret at 1. unfold bind at 1, get_self at 1.
  cbn [self trace].
  unfold passes_filter in Hpass. apply negb_true_iff in Hpass.
  rewrite Hpass, reset_cursor, Hlen.
  unfold bind at 1. rewrite processEvent_properties_empty_payload.
  unfold bind, get_self, emit, raise, ret. cbn [self trace].
  change (event_callback (with_vfield_length (with_index (self w) 0) None))
    with (event_callback (self w)).
  destruct (event_callback (self w)) as [callback |]; [| reflexivity].
  fold event_id.
  change (dict_setitem
            (dict_setitem
               [("EventHeader",
                 PyDict (EventHeader_dict (EventHeader record)))]
               "Description"
               (PyStr (rel_ptr_to_str info (tei_EventMessageOffset info))))
            "Task Name" (PyStr (task_name_of info)))
    with out.
  destruct (callback (event_id, out)); reflexivity.
Qed.

(** *** The output handed to the callback *)

(** X3: for a record whose metadata resolves, [_processEvent] calls the
    callback at most once, as the last thing it does, with the event id
    of the metadata.  The output mapping then has no key twice, starts
    with "EventHeader", and holds the event message under "Description"
    and the normalised task name under "Task Name", whatever the
    properties of the payload are called. *)
Theorem processEvent_output_shape :
  forall record w info w1,
    _getEventInformation api record w = (Return (Some (Ptr info)), w1) ->
    exists r w' evs,
      _processEvent api record w = (r, w')
      /\ Forall is_tdh_call evs
      /\ (trace w' = trace w1 ++ evs
          \/ exists out,
              trace w' = trace w1 ++ evs
                         ++ [Callback (ed_Id (tei_EventDescriptor info)) out]
              /\ NoDup (dict_keys out)
              /\ hd_error (dict_keys out) = Some "EventHeader"
              /\ dict_get out "Description"
                 = Some (PyStr (rel_ptr_to_str info
                                  (tei_EventMessageOffset info)))
              /\ dict_get out "Task Name"
                 = Some (PyStr (task_name_of info))).
Proof.
  intros record w info w1 Hinfo.
  destruct (getEventInformation_run api record) as (r & evs0 & _ & Hrun).
  rewrite Hrun in Hinfo. injection Hinfo as -> <-.
  unfold _processEvent, bind at 1. rewrite Hrun. cbn [contents].
  unfold bind at 1, ret at 1. unfold bind at 1, get_self at 1.
  cbn [self trace].
  destruct (truthy (task_name_filters (self w)) && _).
  { exists (Return tt), {| self := self w; trace := trace w ++ evs0 |}, [].
    split; [reflexivity |]. split; [constructor |].
    left. cbn. now rewrite app_nil_r. }
  rewrite reset_cursor. unfold bind at 1.
  set (w0 := {| self := with_vfield_length (with_index (self w) 0) None;
                trace := trace w ++ evs0 |}).
  destruct (_processEvent_properties api record info _ _ _ _ w0)
    as [[out | e] w2] eqn:Hloop.
  2: { destruct (emits_processEvent_properties _ _ _ _ _ _ _ _ _ Hloop)
         as (evs & Ht & Hq).
       exists (Raise e), w2, evs. split; [reflexivity |].
       split; [exact Hq | left; exact Ht]. }
  destruct (emits_processEvent_properties _ _ _ _ _ _ _ _ _ Hloop)
    as (evs & Ht & Hq).
  assert (Hinv : NoDup (dict_keys out)
                 /\ hd_error (dict_keys out) = Some "EventHeader").
  { eapply (processEvent_properties_invariant
              (fun d => NoDup (dict_keys d)
                        /\ hd_error (dict_keys d) = Some "EventHeader"));
      [| | exact Hloop].
    - intros d k v [H1 H2].
      split; [now apply dict_setitem_NoDup | now apply dict_setitem_first].
    - split; [repeat constructor; intros [] | reflexivity]. }
  destruct Hinv as [Hnd Hhd].
  set (out' := dict_setitem
                 (dict_setitem out "Description"
                    (PyStr (rel_ptr_to_str info
                              (tei_EventMessageOffset info))))
                 "Task Name" (PyStr (task_name_of info))).
  unfold bind, get_self, emit, raise, ret. cbn [self trace].
  destruct (event_callback (self w2)) as [callback |].
  - exists (match callback (ed_Id (tei_EventDescriptor info), out') with
            | Some e => Raise e
            | None => Return tt
            end),
      {| self := self w2;
         trace := trace w2
                  ++ [Callback (ed_Id (tei_EventDescriptor info)) out'] |},
      evs.
    split; [destruct (callback _); reflexivity |].
    split; [exact Hq |]. right. exists out'. cbn [trace].
    rewrite Ht, <- app_assoc. split; [reflexivity |].
    unfold out'. repeat split.
    + now do 2 apply dict_setitem_NoDup.
    + now do 2 apply dict_setitem_first.
    + rewrite dict_get_setitem_other by discriminate.
      apply dict_get_setitem_same.
    + apply dict_get_setitem_same.
  - exists (Return tt), w2, evs. split; [reflexivity |].
    split; [exact Hq | left; exact Ht].
Qed.

(** *** The cursor *)

Ltac case_ifs :=
  repeat match goal with
    | |- context [if ?b then _ else _] => destruct b eqn:?
    | |- context [match ?x with Return _ => _ | Raise _ => _ end] =>
        destruct x as [? | []] eqn:?
    | |- context [match ?x with Some _ => _ | None => _ end] =>
        destruct x eqn:?
    end; cbn.

Lemma c_ushort_range z : 0 <= c_ushort z < 65536.
Proof. unfold c_ushort. apply Z.mod_pos_bound. lia. Qed.

Lemma unpackSimpleType_format_index record info event_property m L w :
  index (self w)
  <= index (self (snd (_unpackSimpleType_format api record info
                         event_property m L w)))
  <= index (self w) + 65535.
Proof.
  unfold _unpackSimpleType_format, except_ValueError,
    _handleEvtInvalidEvtData, call_TdhFormatProperty, bind, ret, raise, lift,
    emit, get_self, set_index, set_vfield_length.
  cbn [fst snd self trace].
  destruct (UserData record); cbn; [| lia].
  case_ifs;
    repeat match goal with
      | |- context [c_ushort ?a] =>
          pose proof (c_ushort_range a); generalize dependent (c_ushort a);
          intros
      end; lia.
Qed.

(** X4: a scalar decode never moves the cursor backwards, and moves it
    forwards by at most 65535 bytes, whatever the formatter reports and
    whether the decode returns or raises. *)
Theorem unpackSimpleType_cursor_moves_forward :
  forall record info event_property w,
    index (self w)
    <= index (self (snd (_unpackSimpleType api record info event_property w)))
    <= index (self w) + 65535.
Proof.
  intros record info event_property w. unfold _unpackSimpleType, bind.
  destruct (unpackSimpleType_length_cases api record info event_property w)
    as [(e & w' & H & Hs) | [(w' & H & _ & Hs) | (m & L & w' & H & Hs)]];
    rewrite H; cbv beta iota.
  - cbn [snd]. rewrite Hs. lia.
  - cbn [snd ret]. rewrite Hs. cbn. lia.
  - rewrite <- Hs. apply unpackSimpleType_format_index.
Qed.

Lemma unpackComplexType_members_index record info js :
  forall out w,
    index (self w)
    <= index (self (snd (_unpackComplexType_members api record info js
                           out w))).
Proof.
  induction js as [| j js IH]; intros out w;
    cbn [_unpackComplexType_members]; [cbn; lia |].
  unfold bind at 1.
  pose proof (unpackSimpleType_cursor_moves_forward record info
                (EventPropertyInfoArray info j) w) as Hstep.
  destruct (_unpackSimpleType api record info _ w) as [[d | e] w1];
    cbn [snd] in *; [| lia].
  unfold bind at 1, lift.
  destruct (unpack_pair d) as [[key value] | e]; cbn [snd]; [| lia].
  cbn [is_None andb]. specialize (IH (dict_setitem out key (PyStr value)) w1).
  lia.
Qed.

Lemma unpackComplexType_index record info event_property w :
  index (self w)
  <= index (self (snd (_unpackComplexType api record info event_property
                         w))).
Proof.
  assert (H : forall n out w,
             index (self w)
             <= index (self (snd (_unpackComplexType_elements api record
                                    info event_property n out w)))).
  { induction n as [| n IH]; intros out w0;
      cbn [_unpackComplexType_elements]; [cbn; lia |].
    unfold bind at 1.
    pose proof (unpackComplexType_members_index record info
                  (range (structType.StructStartIndex event_property)
                     (structType.StructStartIndex event_property
                      + structType.NumOfStructMembers event_property))
                  out w0) as Hstep.
    destruct (_unpackComplexType_members api record info _ out w0)
      as [[d | e] w1]; cbn [snd] in *; [| lia].
    specialize (IH d w1). lia. }
  unfold _unpackComplexType, bind at 1, _getArraySize.
  destruct (flag_set _ PropertyParamCount); [cbn; lia |].
  destruct (flag_set _ PropertyParamFixedCount); [cbn; lia |].
  apply H.
Qed.

Lemma processEvent_properties_index record info user_data end_of_user_data
  indices :
  forall out w,
    index (self w)
    <= index (self (snd (_processEvent_properties api record info user_data
                           end_of_user_data indices out w))).
Proof.
  induction indices as [| i indices IH]; intros out w;
    cbn [_processEvent_properties]; [cbn; lia |].
  unfold bind at 1, _processEvent_property.
  destruct (user_data =? end_of_user_data); [cbn; lia |].
  destruct (flag_set _ PropertyStruct); unfold bind at 1.
  - pose proof (unpackComplexType_index record info
                  (EventPropertyInfoArray info i) w) as Hstep.
    destruct (_unpackComplexType api record info _ w) as [[d | e] w1];
      cbn [snd] in *; [| lia].
    specialize (IH (dict_update out d) w1). cbn. lia.
  - pose proof (unpackSimpleType_cursor_moves_forward record info
                  (EventPropertyInfoArray info i) w) as Hstep.
    destruct (_unpackSimpleType api record info _ w) as [[d | e] w1];
      cbn [snd] in *; [| lia].
    specialize (IH (dict_update out d) w1). cbn. lia.
Qed.

(** X5: the cursor offset of a consumer is never negative: if it is
    not negative before [_processEvent], it is not negative after it,
    whether the record is skipped, filtered, decoded or makes the method
    raise. *)
Theorem processEvent_cursor_not_negative :
  forall record w,
    0 <= index (self w) ->
    0 <= index (self (snd (_processEvent api record w))).
Proof.
  intros record w Hidx.
  destruct (getEventInformation_run api record) as (r & evs & _ & Hrun).
  unfold _processEvent, bind at 1. rewrite Hrun.
  destruct r as [[[| info] |] | e]; cbn [contents snd self]; try exact Hidx.
  unfold bind at 1, ret at 1. unfold bind at 1, get_self at 1.
  cbn [self trace].
  destruct (truthy (task_name_filters (self w)) && _); [exact Hidx |].
  rewrite reset_cursor. unfold bind at 1.
  set (w0 := {| self := with_vfield_length (with_index (self w) 0) None;
                trace := trace w ++ evs |}).
  match goal with
  | |- context [_processEvent_properties api record info ?u ?e ?l ?o w0] =>
      pose proof (processEvent_properties_index record info u e l o w0)
        as Hloop;
      destruct (_processEvent_properties api record info u e l o w0)
        as [[out | e'] w2]
  end; cbn [snd] in *; [| exact Hloop].
  unfold bind, get_self, emit, raise, ret. cbn [self trace].
  destruct (event_callback (self w2)) as [callback |]; [| exact Hloop].
  destruct (callback _); exact Hloop.
Qed.

(** *** A scalar decode that formats, and one whose formatter fails *)


(** X7: when the TdhFormatProperty protocol ends in a status other
    than ERROR_SUCCESS and ERROR_EVT_INVALID_EVENT_DATA, the decode raises
    [WinError] with that status and leaves the consumer as it was: the
    cursor does not move and the pending length is kept. *)
Theorem unpackSimpleType_formatter_failure :
  forall record info event_property w m L w1 p,
    _unpackSimpleType_length api record info event_property w
    = (Return (inr (m, L)), w1) ->
    UserData record = Some p ->
    0 < UserDataLength record - index (self w) ->
    let status :=
      formatter_status api info
        (format_args record event_property m L (p + index (self w))
           (UserDataLength record - index (self w))) in
    status <> ERROR_SUCCESS ->
    status <> ERROR_EVT_INVALID_EVENT_DATA ->
    exists w2,
      _unpackSimpleType api record info event_property w
      = (Raise (WinError (Some status)), w2)
      /\ self w2 = self w.
Proof.
  intros record info event_property w m L w1 p Hlen Hp Hrem status Hok Hinv.
  destruct (unpackSimpleType_length_inr api _ _ _ _ _ _ _ Hlen) as [Hs _].
  unfold _unpackSimpleType, bind at 1. rewrite Hlen.
  unfold _unpackSimpleType_format, call_TdhFormatProperty,
    bind, ret, raise, lift, emit, get_self.
  cbn [fst snd self trace]. rewrite Hp, Hs. cbv beta iota.
  destruct (Z.leb_spec (UserDataLength record - index (self w)) 0); [lia |].
  apply Z.eqb_neq in Hok, Hinv. subst status.
  unfold formatter_status in Hok, Hinv |- *.
  set (args := format_args record event_property m L (p + index (self w))
                 (UserDataLength record - index (self w))) in *.
  destruct (fr_status (TdhFormatProperty api info (args None))
            =? ERROR_INSUFFICIENT_BUFFER);
    cbv beta iota; rewrite Hok, Hinv; cbn [negb]; cbv beta iota;
    eexists; (split; [reflexivity | exact Hs]).
Qed.

(** *** Structures *)

Lemma range_first start stop :
  start < stop -> exists rest, range start stop = start :: rest.
Proof.
  intros Hlt. unfold range.
  destruct (Z.to_nat (stop - start)) as [| n] eqn:Hn; [lia |].
  cbn [seq map]. rewrite Z.add_0_r. eauto.
Qed.

(** X8: a structure property with a plain count of at least one
    element and with at least one member never yields a mapping:
    [_unpackComplexType] raises, and it does so where the scalar decode of
    the first member of the first element ends, with the exception of
    that decode if it raised and with [ValueError] (from
    [key, value = ...]) if it returned. *)
Theorem unpackComplexType_raises_with_members :
  forall record info event_property w,
    flag_set (epi_Flags event_property) PropertyParamCount = false ->
    flag_set (epi_Flags event_property) PropertyParamFixedCount = false ->
    1 <= epi_u2.count event_property ->
    1 <= structType.NumOfStructMembers event_property ->
    let first_member :=
      EventPropertyInfoArray info
        (structType.StructStartIndex event_property) in
    exists e w',
      _unpackComplexType api record info event_property w = (Raise e, w')
      /\ snd (_unpackSimpleType api record info first_member w) = w'
      /\ (fst (_unpackSimpleType api record info first_member w) = Raise e
          \/ (e = ValueError
              /\ exists d,
                  fst (_unpackSimpleType api record info first_member w)
                  = Return d)).
Proof.
  intros record info event_property w Hcount Hfixed Hn Hm first_member.
  unfold _unpackComplexType, bind at 1, _getArraySize.
  rewrite Hcount, Hfixed. unfold ret at 1.
  destruct (Z.to_nat (epi_u2.count event_property)) as [| n] eqn:Hnat;
    [lia |].
  cbn [_unpackComplexType_elements].
  destruct (range_first (structType.StructStartIndex event_property)
              (structType.StructStartIndex event_property
               + structType.NumOfStructMembers event_property))
    as [rest ->]; [lia |].
  cbn [_unpackComplexType_members]. fold first_member.
  unfold bind at 1. unfold bind at 1.
  pose proof (unpackSimpleType_result api record info first_member w) as Hd.
  destruct (_unpackSimpleType api record info first_member w)
    as [[d | e] w1]; cbn [fst snd] in *.
  - unfold bind, lift. rewrite Hd.
    exists ValueError, w1. repeat split. right. eauto.
  - exists e, w1. repeat split. now left.
Qed.

(** *** Filters are compared as they are *)


End RecordDecoder.

(** * Properties of [get_keywords_bitmask] *)

Section KeywordProperties.

Context {tdh : TdhConstants}.
Variable EventKeywordInformation : Z.
Variable TdhEnumerateProviderFieldInformation :
  GUID -> Z -> option Z -> Z * Z * PROVIDER_FIELD_INFOARRAY.

Lemma keyword_get_setitem_same d k v :
  keyword_get (keyword_setitem d k v) k = Some v.
Proof.
  unfold keyword_get.
  induction d as [| [k' v'] d IH]; cbn; [now rewrite String.eqb_refl |].
  destruct (String.eqb k' k) eqn:Heq; cbn; rewrite Heq; [reflexivity | exact IH].
Qed.

Lemma keyword_get_setitem_other d k v k' :
  k <> k' -> keyword_get (keyword_setitem d k v) k' = keyword_get d k'.
Proof.
  intros Hne. unfold keyword_get.
  induction d as [| [k0 v0] d IH]; cbn.
  - destruct (String.eqb_spec k k'); [contradiction | reflexivity].
  - destruct (String.eqb_spec k0 k) as [-> | Hne0]; cbn.
    + destruct (String.eqb_spec k k'); [contradiction | reflexivity].
    + destruct (String.eqb k0 k'); [reflexivity | exact IH].
Qed.

Lemma or_keywords_lor d keywords :
  forall bitmask,
    or_keywords d keywords bitmask
    = Z.lor bitmask (or_keywords d keywords 0).
Proof.
  unfold or_keywords.
  induction keywords as [| k keywords IH]; intros bitmask; cbn.
  - now rewrite Z.lor_0_r.
  - destruct (keyword_get d k) as [v |]; [| apply IH].
    rewrite (IH (Z.lor bitmask v)), (IH v). symmetry. apply Z.lor_assoc.
Qed.

Lemma or_keywords_app d ks1 ks2 :
  or_keywords d (ks1 ++ ks2) 0
  = Z.lor (or_keywords d ks1 0) (or_keywords d ks2 0).
Proof.
  unfold or_keywords at 1. rewrite fold_left_app.
  fold (or_keywords d ks1 0).
  fold (or_keywords d ks2 (or_keywords d ks1 0)).
  apply or_keywords_lor.
Qed.

Lemma or_keywords_testbit d keywords i :
  Z.testbit (or_keywords d keywords 0) i = true
  <-> exists k v,
      In k keywords /\ keyword_get d k = Some v /\ Z.testbit v i = true.
Proof.
  induction keywords as [| k keywords IH].
  - cbn. rewrite Z.testbit_0_l. split; [discriminate |].
    now intros (k & v & [] & _).
  - change (k :: keywords) with ([k] ++ keywords).
    rewrite or_keywords_app, Z.lor_spec, orb_true_iff, IH.
    unfold or_keywords at 1. cbn [fold_left].
    split.
    + intros [H | (k' & v & Hin & Hget & Hbit)].
      * destruct (keyword_get d k) as [v |] eqn:Hget.
        -- rewrite Z.lor_0_l in H. exists k, v. cbn. auto.
        -- now rewrite Z.testbit_0_l in H.
      * exists k', v. cbn. auto.
    + intros (k' & v & [<- | Hin] & Hget & Hbit).
      * left. now rewrite Hget, Z.lor_0_l.
      * right. eauto.
Qed.

(** The result of [get_keywords_bitmask], case by case. *)
Lemma get_keywords_bitmask_result guid keywords :
  fst (get_keywords_bitmask EventKeywordInformation
         TdhEnumerateProviderFieldInformation guid keywords)
  = match keywords with
    | [] => Return 0
    | _ :: _ =>
        if enumeration_fails EventKeywordInformation
          TdhEnumerateProviderFieldInformation guid then Raise (WinError None)
        else Return (or_keywords (enumerated_keywords EventKeywordInformation
               TdhEnumerateProviderFieldInformation guid) keywords 0)
    end.
Proof.
  unfold get_keywords_bitmask, enumeration_fails, enumerated_keywords.
  destruct keywords as [| k keywords]; [reflexivity |].
  cbn [List.length Nat.eqb].
  destruct (TdhEnumerateProviderFieldInformation guid _ None)
    as [[status size] blk].
  destruct (status =? ERROR_INSUFFICIENT_BUFFER).
  - destruct (TdhEnumerateProviderFieldInformation guid _ (Some _))
      as [[status' size'] blk'].
    destruct (negb (ERROR_SUCCESS =? status')
              && negb (ERROR_NOT_FOUND =? status')); reflexivity.
  - cbn [fst]. f_equal. symmetry.
    set (ks := k :: keywords). clearbody ks.
    unfold or_keywords. induction ks as [| k0 ks IH]; cbn; auto.
Qed.

(** X10: every bit of the mask that [get_keywords_bitmask] returns is
    a bit of the value of one of the requested keywords that the provider
    defines, and every bit of such a value is in the mask; a requested
    keyword that the provider does not define contributes nothing and is
    not an error. *)
Theorem get_keywords_bitmask_bits :
  forall guid keywords bitmask,
    fst (get_keywords_bitmask EventKeywordInformation
         TdhEnumerateProviderFieldInformation guid keywords) = Return bitmask ->
    forall i,
      Z.testbit bitmask i = true
      <-> exists k v,
          In k keywords
          /\ keyword_get (enumerated_keywords EventKeywordInformation
               TdhEnumerateProviderFieldInformation guid) k = Some v
          /\ Z.testbit v i = true.
Proof.
  intros guid keywords bitmask Hrun i.
  rewrite get_keywords_bitmask_result in Hrun.
  destruct keywords as [| k keywords].
  - injection Hrun as <-. rewrite Z.testbit_0_l.
    split; [discriminate | now intros (k & v & [] & _)].
  - destruct (enumeration_fails EventKeywordInformation
          TdhEnumerateProviderFieldInformation guid); [discriminate |].
    replace bitmask
      with (or_keywords
              (enumerated_keywords EventKeywordInformation
                 TdhEnumerateProviderFieldInformation guid)
              (k :: keywords) 0) by congruence.
    apply or_keywords_testbit.
Qed.

(** X11: the masks of two keyword lists compose: when both lists
    resolve, their concatenation resolves to the bitwise or of the two
    masks. *)
Theorem get_keywords_bitmask_app :
  forall guid ks1 ks2 b1 b2,
    fst (get_keywords_bitmask EventKeywordInformation
         TdhEnumerateProviderFieldInformation guid ks1) = Return b1 ->
    fst (get_keywords_bitmask EventKeywordInformation
         TdhEnumerateProviderFieldInformation guid ks2) = Return b2 ->
    fst (get_keywords_bitmask EventKeywordInformation
         TdhEnumerateProviderFieldInformation guid (ks1 ++ ks2)) = Return (Z.lor b1 b2).
Proof.
  intros guid ks1 ks2 b1 b2 H1 H2.
  rewrite get_keywords_bitmask_result in *.
  destruct ks1 as [| k1 ks1]; cbn [app].
  - injection H1 as <-. now rewrite Z.lor_0_l.
  - destruct (enumeration_fails EventKeywordInformation
          TdhEnumerateProviderFieldInformation guid); [discriminate |].
    change (k1 :: ks1 ++ ks2) with ((k1 :: ks1) ++ ks2).
    rewrite or_keywords_app. f_equal. f_equal; [congruence |].
    destruct ks2 as [| k2 ks2]; [cbn | idtac]; congruence.
Qed.

(** X12: the mask depends only on which keywords are requested, not
    on their order or on how often each is listed: two lists with the same
    elements get the same result. *)
Theorem get_keywords_bitmask_same_keywords :
  forall guid ks1 ks2,
    (forall k, In k ks1 <-> In k ks2) ->
    fst (get_keywords_bitmask EventKeywordInformation
         TdhEnumerateProviderFieldInformation guid ks1) = fst (get_keywords_bitmask EventKeywordInformation
         TdhEnumerateProviderFieldInformation guid ks2).
Proof.
  intros guid ks1 ks2 Hsame.
  rewrite !get_keywords_bitmask_result.
  destruct ks1 as [| k1 ks1], ks2 as [| k2 ks2]; try reflexivity.
  - exfalso. apply (proj2 (Hsame k2)). now left.
  - exfalso. apply (proj1 (Hsame k1)). now left.
  - destruct (enumeration_fails EventKeywordInformation
          TdhEnumerateProviderFieldInformation guid); [reflexivity |]. f_equal.
    apply Z.bits_inj'. intros i _.
    apply eq_true_iff_eq. rewrite !or_keywords_testbit.
    split; intros (k & v & Hin & Hrest); exists k, v;
      (split; [now apply Hsame | exact Hrest]).
Qed.

(** X13: when the size probe answers anything but
    ERROR_INSUFFICIENT_BUFFER, be it success or a failure, the result is 0
    for every keyword list: the function does not raise and makes no
    second call. *)
Theorem get_keywords_bitmask_without_buffer :
  forall guid keywords,
    fst (fst (TdhEnumerateProviderFieldInformation guid
                EventKeywordInformation None))
    <> ERROR_INSUFFICIENT_BUFFER ->
    fst (get_keywords_bitmask EventKeywordInformation
         TdhEnumerateProviderFieldInformation guid keywords) = Return 0
    /\ (List.length (snd (get_keywords_bitmask EventKeywordInformation
         TdhEnumerateProviderFieldInformation guid keywords)) <= 1)%nat.
Proof.
  intros guid keywords Hprobe. unfold get_keywords_bitmask.
  destruct keywords as [| k keywords]; [cbn; auto |].
  cbn [List.length Nat.eqb].
  destruct (TdhEnumerateProviderFieldInformation guid _ None)
    as [[status size] blk].
  cbn [fst] in Hprobe.
  destruct (Z.eqb_spec status ERROR_INSUFFICIENT_BUFFER); [contradiction |].
  cbn. auto.
Qed.

Lemma find_app_last {A} (f : A -> bool) l x :
  find f (l ++ [x])
  = match find f l with
    | Some y => Some y
    | None => if f x then Some x else None
    end.
Proof.
  induction l as [| a l IH]; cbn; [reflexivity |].
  destruct (f a); [reflexivity | exact IH].
Qed.

(** X14: the table built from the block of the provider maps a name to
    the value of the last element of the block that carries this name, and
    a name that no element carries is not in the table. *)
Theorem provider_keywords_last_value :
  forall provider_info name,
    keyword_get (provider_keywords provider_info) name
    = option_map (field_value provider_info)
        (find (fun i => String.eqb (field_name provider_info i) name)
           (rev (range 0 (NumberOfElements provider_info)))).
Proof.
  intros provider_info name. unfold provider_keywords.
  set (l := range 0 (NumberOfElements provider_info)). clearbody l.
  assert (H : forall d,
             keyword_get
               (fold_left
                  (fun d i =>
                     keyword_setitem d (field_name provider_info i)
                       (field_value provider_info i)) l d) name
             = match find (fun i => String.eqb (field_name provider_info i)
                                      name) (rev l) with
               | Some i => Some (field_value provider_info i)
               | None => keyword_get d name
               end).
  { induction l as [| i l IH]; intros d; cbn [fold_left rev find];
      [reflexivity |].
    rewrite IH, find_app_last.
    destruct (find _ (rev l)); [reflexivity |].
    destruct (String.eqb_spec (field_name provider_info i) name)
      as [<- | Hne].
    - apply keyword_get_setitem_same.
    - now apply keyword_get_setitem_other. }
  unfold field_name, field_value in H. rewrite H.
  now destruct (find _ (rev l)).
Qed.

End KeywordProperties.

(** * Properties of [EventProvider] *)

Section SessionProperties.

Context {tdh : TdhConstants}.
Variable EVENT_CONTROL_CODE_ENABLE_PROVIDER : Z.
Variable EVENT_CONTROL_CODE_DISABLE_PROVIDER : Z.
Variable EVENT_TRACE_CONTROL_STOP : Z.
Variable os : list session_call -> session_call -> Z * option Z.

(** X15: a provider whose [start] returned made exactly two calls,
    StartTraceW and EnableTraceEx2 with the handle that StartTraceW left.
    If that handle is not 0, [stop] then disables the provider with the
    same handle, GUID, level and keyword masks it was enabled with.  When
    the operating system answers the disabling with a status other than
    ERROR_SUCCESS, [stop] raises [WinError] and ControlTraceW is not
    called; when it answers ERROR_SUCCESS, ControlTraceW is called to
    stop the session, and [stop] returns or raises [WinError] by the
    status of that call.  [stop] does not change the provider. *)
Theorem EventProvider_start_then_stop :
  forall p history p1 history1,
    EventProvider_start EVENT_CONTROL_CODE_ENABLE_PROVIDER os p history
    = (Return tt, p1, history1) ->
    session_handle p1 <> 0 ->
    let enable control_code :=
      EnableTraceEx2 (session_handle p1) (provider_guid p) control_code
        (level p) (match_any_bitmask p) (match_all_bitmask p) in
    let disable := enable EVENT_CONTROL_CODE_DISABLE_PROVIDER in
    let control :=
      ControlTraceW (session_handle p1) (session_name p)
        (session_properties p) EVENT_TRACE_CONTROL_STOP in
    history1
    = history ++ [StartTraceW (session_name p) (session_properties p);
                  enable EVENT_CONTROL_CODE_ENABLE_PROVIDER]
    /\ EventProvider_stop EVENT_CONTROL_CODE_DISABLE_PROVIDER
         EVENT_TRACE_CONTROL_STOP os p1 history1
       = if fst (os history1 disable) =? ERROR_SUCCESS
         then
           (if fst (os (history1 ++ [disable]) control) =? ERROR_SUCCESS
            then Return tt
            else Raise (WinError None),
            p1, history1 ++ [disable; control])
         else (Raise (WinError None), p1, history1 ++ [disable]).
Proof.
  intros p history p1 history1 Hstart Hhandle enable disable control.
  unfold EventProvider_start in Hstart.
  destruct (os history _) as [status handle].
  destruct (negb (status =? ERROR_SUCCESS)); [discriminate |].
  destruct (os (history ++ _) _) as [status' unused].
  destruct (negb (status' =? ERROR_SUCCESS)); [discriminate |].
  injection Hstart as <- <-.
  assert (Hsame : provider_guid (with_session_handle p handle)
                  = provider_guid p
                  /\ session_name (with_session_handle p handle)
                     = session_name p
                  /\ session_properties (with_session_handle p handle)
                     = session_properties p
                  /\ level (with_session_handle p handle) = level p
                  /\ match_any_bitmask (with_session_handle p handle)
                     = match_any_bitmask p
                  /\ match_all_bitmask (with_session_handle p handle)
                     = match_all_bitmask p)
    by (destruct handle; repeat split).
  destruct Hsame as (Hg & Hn & Hp & Hl & Ha & Hb).
  subst disable enable control. cbv beta.
  set (p1 := with_session_handle p handle) in *.
  rewrite <- Hg, <- Hn, <- Hp, <- Hl, <- Ha, <- Hb.
  split; [now rewrite <- app_assoc |].
  unfold EventProvider_stop.
  destruct (Z.eqb_spec (session_handle p1) 0); [contradiction |].
  destruct (os _ _) as [status2 unused2]. cbn [fst].
  destruct (status2 =? ERROR_SUCCESS); cbn [negb]; [| reflexivity].
  destruct (os _ _) as [status3 unused3]. cbn [fst].
  destruct (status3 =? ERROR_SUCCESS); cbn [negb];
    now rewrite <- app_assoc.
Qed.

End SessionProperties.

(** * The added properties on concrete inputs *)

(** A record without a schema (1168 is ERROR_NOT_FOUND). *)
Lemma processEvent_without_metadata_witness :
  exists evs,
    Forall (fun e => exists b, e = GetEventInformation b) evs
    /\ @_processEvent sdk ascii_text
         (ex_api_without_metadata 1168) (ex_record 4)
         (ex_world [])
       = (Return tt, {| self := self (ex_world []); trace := [] ++ evs |}).
Proof.
  refine (@processEvent_without_metadata sdk ascii_text
            (ex_api_without_metadata 1168)
            (ex_record 4) (ex_world []) _).
  intros H. cbv in H. discriminate H.
Defined.

(** The metadata of [c1_info] with an empty payload and a null
    [UserData]. *)
Lemma processEvent_empty_payload_witness :
  let record :=
    {| EventHeader := ex_header; UserData := None; UserDataLength := 0 |} in
  @_processEvent sdk ascii_text c1_api record (ex_world [])
  = (Return tt,
     {| self := self (ex_world []);
        trace := [GetEventInformation None; GetEventInformation (Some 512);
                  Callback 7 (@header_only_output ascii_text
                                record c1_info)] |}).
Proof.
  refine (@processEvent_empty_payload sdk ascii_text c1_api
            {| EventHeader := ex_header; UserData := None;
               UserDataLength := 0 |}
            (ex_world []) c1_info
            {| self := self (ex_world []);
               trace := [GetEventInformation None;
                         GetEventInformation (Some 512)] |} _ _ _);
    reflexivity.
Defined.

(** The record of [c3_info]. *)
Lemma processEvent_output_shape_witness :
  exists r w' evs,
    @_processEvent sdk ascii_text c3_api (ex_record 40) (ex_world []) = (r, w')
    /\ Forall is_tdh_call evs
    /\ (trace w'
        = [GetEventInformation None; GetEventInformation (Some 512)] ++ evs
        \/ exists out,
            trace w'
            = [GetEventInformation None; GetEventInformation (Some 512)]
              ++ evs ++ [Callback 7 out]
            /\ NoDup (dict_keys out)
            /\ hd_error (dict_keys out) = Some "EventHeader"
            /\ dict_get out "Description" = Some (PyStr "message")
            /\ dict_get out "Task Name" = Some (PyStr "TASK A")).
Proof.
  refine (@processEvent_output_shape sdk ascii_text
            c3_api (ex_record 40) (ex_world [])
            c3_info
            {| self := self (ex_world []);
               trace := [GetEventInformation None;
                         GetEventInformation (Some 512)] |} _).
  reflexivity.
Defined.

Lemma processEvent_cursor_not_negative_witness :
  0 <= index (self (snd (@_processEvent sdk ascii_text c3_api (ex_record 40)
                           (ex_world [])))).
Proof.
  refine (@processEvent_cursor_not_negative sdk ascii_text c3_api (ex_record 40)
            (ex_world []) _).
  cbn. lia.
Defined.


(** "Blob" of [c6_info] with the formatter of [failing_format_api]. *)
Lemma unpackSimpleType_formatter_failure_witness :
  exists w2,
    @_unpackSimpleType sdk ascii_text failing_format_api (ex_record 3) c6_info
      (EventPropertyInfoArray c6_info 0) (ex_world [])
    = (Raise (WinError (Some 87)), w2)
    /\ self w2 = self (ex_world []).
Proof.
  refine (@unpackSimpleType_formatter_failure sdk ascii_text failing_format_api
            (ex_record 3) c6_info (EventPropertyInfoArray c6_info 0)
            (ex_world []) None 8
            {| self := self (ex_world []);
               trace := [GetEventMapInformation "" None] |}
            4096 _ _ _ _ _).
  - reflexivity.
  - reflexivity.
  - cbn. lia.
  - intros H. cbv in H. discriminate H.
  - intros H. cbv in H. discriminate H.
Defined.

(** The structure property of [c2_info]. *)
Lemma unpackComplexType_raises_with_members_witness :
  exists e w',
    @_unpackComplexType sdk ascii_text c2_api (ex_record 24) c2_info
      (EventPropertyInfoArray c2_info 0) (ex_world []) = (Raise e, w')
    /\ snd (@_unpackSimpleType sdk ascii_text c2_api (ex_record 24) c2_info
              (EventPropertyInfoArray c2_info 1) (ex_world [])) = w'
    /\ (fst (@_unpackSimpleType sdk ascii_text c2_api (ex_record 24) c2_info
               (EventPropertyInfoArray c2_info 1) (ex_world []))
        = Raise e
        \/ (e = ValueError
            /\ exists d,
                fst (@_unpackSimpleType sdk ascii_text
                       c2_api (ex_record 24) c2_info
                       (EventPropertyInfoArray c2_info 1) (ex_world []))
                = Return d)).
Proof.
  refine (@unpackComplexType_raises_with_members sdk ascii_text
            c2_api (ex_record 24)
            c2_info (EventPropertyInfoArray c2_info 0) (ex_world [])
            _ _ _ _).
  - reflexivity.
  - reflexivity.
  - cbn. lia.
  - cbn. lia.
Defined.

(** "Data" of [c3_info] with 12 pending. *)
Lemma unpackSimpleType_keeps_pending_length_witness :
  vfield_length
    (self (snd (@_unpackSimpleType sdk ascii_text c3_api (ex_record 40) c3_info
                  (EventPropertyInfoArray c3_info 1)
                  (ex_world_at 4 (Some 12)))))
  = Some 12.
Proof.
  refine (@unpackSimpleType_keeps_pending_length sdk ascii_text
            c3_api (ex_record 40)
            c3_info (EventPropertyInfoArray c3_info 1)
            (ex_world_at 4 (Some 12)) 12 _ _ _).
  - reflexivity.
  - reflexivity.
  - discriminate.
Defined.

(** The keywords "read" and "none" against [ex_provider_info]: "read" is
    listed twice, with the values 1 and then 4. *)
Lemma get_keywords_bitmask_bits_witness :
  Z.testbit 4 2 = true
  <-> exists k v,
      In k ["read"; "none"]
      /\ keyword_get (@enumerated_keywords sdk 0 ex_enumerate "{provider}") k
         = Some v
      /\ Z.testbit v 2 = true.
Proof.
  refine (@get_keywords_bitmask_bits sdk 0 ex_enumerate "{provider}"
            ["read"; "none"] 4 _ 2).
  reflexivity.
Defined.

Lemma get_keywords_bitmask_app_witness :
  fst (@get_keywords_bitmask sdk 0 ex_enumerate "{provider}"
         (["read"] ++ ["write"]))
  = Return (Z.lor 4 2).
Proof.
  refine (@get_keywords_bitmask_app sdk 0 ex_enumerate "{provider}"
            ["read"] ["write"] 4 2 _ _); reflexivity.
Defined.

Lemma get_keywords_bitmask_same_keywords_witness :
  fst (@get_keywords_bitmask sdk 0 ex_enumerate "{provider}"
         ["read"; "write"; "read"])
  = fst (@get_keywords_bitmask sdk 0 ex_enumerate "{provider}"
           ["write"; "read"]).
Proof.
  refine (@get_keywords_bitmask_same_keywords sdk 0 ex_enumerate
            "{provider}" ["read"; "write"; "read"] ["write"; "read"] _).
  intros k. cbn. tauto.
Defined.

Lemma get_keywords_bitmask_without_buffer_witness :
  fst (@get_keywords_bitmask sdk 0 ex_enumerate_refused "{provider}"
         ["read"])
  = Return 0
  /\ (List.length
        (snd (@get_keywords_bitmask sdk 0 ex_enumerate_refused "{provider}"
                ["read"])) <= 1)%nat.
Proof.
  refine (@get_keywords_bitmask_without_buffer sdk 0 ex_enumerate_refused
            "{provider}" ["read"] _).
  intros H. cbv in H. discriminate H.
Defined.

(** [ex_provider] started and stopped on [ex_os] (control codes 1, 0 and
    1). *)
Lemma EventProvider_start_then_stop_witness :
  let p1 := with_session_handle ex_provider (Some 77) in
  let history1 :=
    [StartTraceW "session" ex_trace_properties;
     EnableTraceEx2 77 "{provider}" 1 4 0 0] in
  [] ++ history1 = history1
  /\ @EventProvider_stop sdk 0 1 ex_os p1 history1
     = (Return tt, p1,
        history1 ++ [EnableTraceEx2 77 "{provider}" 0 4 0 0;
                     ControlTraceW 77 "session" ex_trace_properties 1]).
Proof.
  cbv zeta.
  refine (let H := @EventProvider_start_then_stop sdk 1 0 1 ex_os ex_provider
                     [] (with_session_handle ex_provider (Some 77))
                     [StartTraceW "session" ex_trace_properties;
                      EnableTraceEx2 77 "{provider}" 1 4 0 0] _ _ in
          conj eq_refl (proj2 H)).
  - reflexivity.
  - discriminate.
Defined.

